(** * Ticket service: a shallow embedding of [main.py]

    The service is a FastAPI application over one MongoDB collection,
    ["ticket"].  Handlers are embedded as functions from the process state
    (the [db] handle, the environment) and the request inputs to an outcome
    (a returned body or a raised exception) and, for the writing handlers,
    the next state of the store.

    Python dictionaries are finite maps from field names to values; a
    collection is the list of its documents in natural order.  The clock
    ([datetime.utcnow()]) and the identifier generator of the driver are
    inputs of the handlers that use them. *)

From Stdlib Require Import NArith ZArith String Ascii List Lia.
From stdpp Require Import base option list strings gmap fin_maps pretty.

Local Open Scope string_scope.
Local Open Scope N_scope.

(** ** Strings *)

(** A Python [str] is held as its UTF-8 encoding: one [ascii] per byte.  A
    code point starts at every byte that is not a continuation byte
    ([10xxxxxx]). *)
Definition is_continuation (a : ascii) : bool :=
  let n := N_of_ascii a in (128 <=? n) && (n <? 192).

(** [len(s)]: the number of code points. *)
Fixpoint py_len (s : string) : nat :=
  match s with
  | EmptyString => O
  | String a s' => if is_continuation a then py_len s' else S (py_len s')
  end.

(** [s[:n]]: the first [n] code points. *)
Fixpoint str_take (n : nat) (s : string) : string :=
  match s with
  | EmptyString => EmptyString
  | String a s' =>
      if is_continuation a then String a (str_take n s')
      else match n with
           | O => EmptyString
           | S n' => String a (str_take n' s')
           end
  end.

(** ** Exceptions and outcomes *)

(** The exceptions the handlers raise or catch.  [HTTPException] is
    FastAPI's; [InvalidId] is what [bson.ObjectId] raises on a string it
    cannot parse, kept with that string; [PyException] stands for every
    other [Exception], with the text [str(e)] gives.  All three are
    subclasses of [Exception]. *)
Inductive exn : Type :=
  | HTTPException (status_code : Z) (detail : string)
  | InvalidId (oid : string)
  | PyException (msg : string).

Inductive outcome (A : Type) : Type :=
  | Returns (a : A)
  | Raises (e : exn).
Arguments Returns {A} a.
Arguments Raises {A} e.

#[global] Instance outcome_ret : MRet outcome := fun _ a => Returns a.
#[global] Instance outcome_bind : MBind outcome := fun _ _ f m =>
  match m with
  | Returns a => f a
  | Raises e => Raises e
  end.

#[global] Instance outcome_fmap : FMap outcome := fun _ _ f m =>
  match m with
  | Returns a => Returns (f a)
  | Raises e => Raises e
  end.

(** [try: m  except Exception: h] *)
Definition try_except {A} (m : outcome A) (h : exn -> outcome A) : outcome A :=
  match m with
  | Returns a => Returns a
  | Raises e => h e
  end.

(** [try: m  except HTTPException: raise  except Exception: h] *)
Definition try_except_reraising_http {A}
    (m : outcome A) (h : exn -> outcome A) : outcome A :=
  match m with
  | Returns a => Returns a
  | Raises (HTTPException s d) => Raises (HTTPException s d)
  | Raises e => h e
  end.


(** ** Timestamps *)

(** A naive [datetime.datetime] (no time zone), as [utcnow()] returns and as
    the driver decodes, and a [datetime.date]. *)
Record datetime : Type := mk_datetime {
  year : N; month : N; day : N;
  hour : N; minute : N; second : N; microsecond : N
}.

Record date : Type := mk_date { d_year : N; d_month : N; d_day : N }.

#[global] Instance datetime_eq_dec : EqDecision datetime.
Proof. solve_decision. Defined.
#[global] Instance date_eq_dec : EqDecision date.
Proof. solve_decision. Defined.

(** Decimal digits of [n], least significant first, exactly [w] of them. *)
Fixpoint digits_rev (w : nat) (n : N) : list N :=
  match w with
  | O => []
  | S w' => (n mod 10) :: digits_rev w' (n / 10)
  end.

Definition digit_char (d : N) : ascii := ascii_of_N (48 + d).

(** ["%0wd" % n] for an [n] of at most [w] digits. *)
Definition zero_pad (w : nat) (n : N) : string :=
  string_of_list_ascii (rev (map digit_char (digits_rev w n))).

Definition date_part (y m d : N) : string :=
  zero_pad 4 y ++ "-" ++ zero_pad 2 m ++ "-" ++ zero_pad 2 d.

Definition time_part (t : datetime) : string :=
  zero_pad 2 (hour t) ++ ":" ++ zero_pad 2 (minute t) ++ ":" ++
  zero_pad 2 (second t) ++
  (if microsecond t =? 0 then "" else "." ++ zero_pad 6 (microsecond t)).

(** [datetime.isoformat(sep)] of a naive datetime. *)
Definition datetime_isoformat_sep (sep : string) (t : datetime) : string :=
  date_part (year t) (month t) (day t) ++ sep ++ time_part t.

Definition datetime_isoformat : datetime -> string :=
  datetime_isoformat_sep "T".

Definition date_isoformat (d : date) : string :=
  date_part (d_year d) (d_month d) (d_day d).

(** BSON keeps UTC datetimes as whole milliseconds: what is read back has
    the microseconds rounded down to a multiple of 1000. *)
Definition bson_datetime (t : datetime) : datetime :=
  mk_datetime (year t) (month t) (day t) (hour t) (minute t) (second t)
              (microsecond t / 1000 * 1000).

(** ** Object identifiers *)

(** A [bson.ObjectId] wraps a byte string, 12 bytes in every identifier the
    store holds.  A 12-byte one is held as the number its bytes spell in
    big-endian order, below [oid_bound].  The constructor also accepts
    24-character strings that [bytes.fromhex] reads as fewer bytes; the
    object for [count] bytes spelling [n] is held as
    [oid_bound * (count + 1) + n], at or above [oid_bound]. *)
Definition oid : Type := N.

Definition oid_bound : N := 2 ^ 96.

Definition hex_value (a : ascii) : option N :=
  let n := N_of_ascii a in
  if (48 <=? n) && (n <=? 57) then Some (n - 48)
  else if (97 <=? n) && (n <=? 102) then Some (n - 87)
  else if (65 <=? n) && (n <=? 70) then Some (n - 55)
  else None.

(** ASCII white space: tab, line feed, vertical tab, form feed, carriage
    return, space. *)
Definition is_space (a : ascii) : bool :=
  let n := N_of_ascii a in ((9 <=? n) && (n <=? 13)) || (n =? 32).

(** [bytes.fromhex(s)]: two hexadecimal digits per byte, white space
    skipped between bytes (not inside one); anything else is a
    [ValueError], here [None].  The result is the number of bytes and the
    number they spell in big-endian order. *)
Fixpoint fromhex (s : string) (count : nat) (acc : N) : option (nat * N) :=
  match s with
  | EmptyString => Some (count, acc)
  | String a s1 =>
      if is_space a then fromhex s1 count acc
      else
        match hex_value a with
        | None => None
        | Some top =>
            match s1 with
            | EmptyString => None
            | String b s2 =>
                match hex_value b with
                | None => None
                | Some bot => fromhex s2 (S count) (acc * 256 + (top * 16 + bot))
                end
            end
        end
  end.

(** The object for a byte string of [count] bytes spelling [n]. *)
Definition oid_of_bytes (count : nat) (n : N) : oid :=
  if Nat.eqb count 12 then n else oid_bound * (N.of_nat count + 1) + n.

(** [ObjectId(s)] for a [str] argument: [len(s) == 24] and
    [bytes.fromhex(s)] succeeding, or [InvalidId]. *)
Definition ObjectId (s : string) : outcome oid :=
  if Nat.eqb (py_len s) 24
  then match fromhex s 0 0 with
       | Some (count, n) => Returns (oid_of_bytes count n)
       | None => Raises (InvalidId s)
       end
  else Raises (InvalidId s).

Definition hex_char (d : N) : ascii :=
  if d <? 10 then ascii_of_N (48 + d) else ascii_of_N (87 + d).

(** The last [w] bytes of [n] in lower-case hexadecimal, two digits each, in
    front of [acc]. *)
Fixpoint hex_bytes (w : nat) (n : N) (acc : string) : string :=
  match w with
  | O => acc
  | S w' =>
      hex_bytes w' (n / 256)
        (String (hex_char (n mod 256 / 16)) (String (hex_char (n mod 16)) acc))
  end.

(** The number of bytes of the object. *)
Definition oid_size (o : oid) : nat :=
  if o <? oid_bound then 12%nat else (N.to_nat (o / oid_bound) - 1)%nat.

(** [str(o)] for an [ObjectId]: its bytes in lower-case hexadecimal, 24
    digits for a 12-byte identifier. *)
Definition oid_str (o : oid) : string :=
  hex_bytes (oid_size o) (o mod oid_bound) "".

(** ** Values and documents *)

Inductive value : Type :=
  | VNull
  | VBool (b : bool)
  | VInt (z : Z)
  | VStr (s : string)
  | VOid (o : oid)
  | VDatetime (t : datetime)
  | VDate (d : date).

#[global] Instance value_eq_dec : EqDecision value.
Proof. solve_decision. Defined.

(** A Python [dict] with [str] keys, a BSON document. *)
Abbreviation dict := (gmap string value).

(** [str(v)] *)
Definition py_str (v : value) : string :=
  match v with
  | VNull => "None"
  | VBool true => "True"
  | VBool false => "False"
  | VInt z => pretty z
  | VStr s => s
  | VOid o => oid_str o
  | VDatetime t => datetime_isoformat_sep " " t
  | VDate d => date_isoformat d
  end.

(** What the loop of [serialize_doc] leaves under a key: [v.isoformat()]
    where [isinstance(v, (datetime.datetime, datetime.date))], [v] itself
    otherwise. *)
Definition render (v : value) : value :=
  match v with
  | VDatetime t => VStr (datetime_isoformat t)
  | VDate d => VStr (date_isoformat d)
  | _ => v
  end.

(** What the store keeps of a value written to it. *)
Definition bson_value (v : value) : value :=
  match v with
  | VDatetime t => VDatetime (bson_datetime t)
  | _ => v
  end.

(** ** The document store *)

(** The store as the handlers reach it through [pymongo].  Its calls are
    modelled where the store answers; a connection that fails in the middle
    of a request is outside the model, [list_collection_names] apart. *)

(** A collection: its documents in natural (insertion) order. *)
Abbreviation collection := (list dict).

(** What [db.list_collection_names()] does: it returns the names, or
    raises an exception [e], kept as the text [str(e)]. *)
Inductive listing : Type :=
  | Listed (names : list string)
  | ListingFailed (text : string).

(** A [pymongo] database handle and what it reaches: [db_name] is the
    [name] attribute where the handle has one, [list_collection_names] the
    outcome of that call in this state, [collections] the contents. *)
Record database : Type := mk_database {
  db_name : option string;
  list_collection_names : listing;
  collections : gmap string collection
}.

(** [db[c]] *)
Definition coll (d : database) (c : string) : collection :=
  default [] (collections d !! c).

Definition set_coll (d : database) (c : string) (docs : collection) : database :=
  mk_database (db_name d) (list_collection_names d) (<[c := docs]> (collections d)).

(** A value a stored document can hold.  A BSON ObjectId is 12 bytes: an
    [ObjectId] object of another size is no identifier of the store. *)
Definition storable (v : value) : bool :=
  match v with
  | VOid o => o <? oid_bound
  | _ => true
  end.

(** A query document of field/value pairs selects the documents that hold
    every listed field with exactly that value; a value no document can
    hold selects nothing. *)
Definition matches (flt : dict) (d : dict) : bool :=
  bool_decide
    (map_Forall (fun k v => storable v = true /\ d !! k = Some v) flt).

(** [c.find(flt)] and [c.find_one(flt)] *)
Definition find (c : collection) (flt : dict) : list dict :=
  List.filter (matches flt) c.

Definition find_one (c : collection) (flt : dict) : option dict :=
  head (find c flt).

(** [c.insert_one(document)]: a document without ["_id"] gets the next
    generated identifier, [fresh]; an ["_id"] already in the collection is
    a duplicate-key error.  Returns [inserted_id]. *)
Definition insert_one (c : collection) (fresh : oid) (document : dict)
    : outcome value * collection :=
  let id := default (VOid fresh) (document !! "_id") in
  let document := <["_id" := id]> document in
  if existsb (matches {["_id" := id]}) c
  then (Raises (PyException "E11000 duplicate key error"), c)
  else (Returns id, (c ++ [bson_value <$> document])%list).

(** [c.update_one(flt, {"$set": updates})]: the first match gets every field
    of [updates]; returns the collection and [matched_count]. *)
Fixpoint update_one (c : collection) (flt updates : dict) : collection * N :=
  match c with
  | [] => ([], 0)
  | d :: c' =>
      if matches flt d then (((bson_value <$> updates) ∪ d) :: c', 1)
      else let '(c'', n) := update_one c' flt updates in (d :: c'', n)
  end.

(** [c.delete_one(flt)]: removes the first match; returns the collection and
    [deleted_count]. *)
Fixpoint delete_one (c : collection) (flt : dict) : collection * N :=
  match c with
  | [] => ([], 0)
  | d :: c' =>
      if matches flt d then (c', 1)
      else let '(c'', n) := delete_one c' flt in (d :: c'', n)
  end.

(** The three writes on [db[name]].  A write that changes nothing leaves the
    database as it is (a collection is not created by a miss). *)
Definition db_insert_one (d : database) (name : string) (fresh : oid)
    (document : dict) : outcome value * database :=
  match insert_one (coll d name) fresh document with
  | (Returns id, c) => (Returns id, set_coll d name c)
  | (Raises e, _) => (Raises e, d)
  end.

Definition db_update_one (d : database) (name : string) (flt updates : dict)
    : database * N :=
  let '(c, matched_count) := update_one (coll d name) flt updates in
  (if matched_count =? 0 then d else set_coll d name c, matched_count).

Definition db_delete_one (d : database) (name : string) (flt : dict)
    : database * N :=
  let '(c, deleted_count) := delete_one (coll d name) flt in
  (if deleted_count =? 0 then d else set_coll d name c, deleted_count).

(** ** Payloads *)

Definition opt_value (o : option string) : value :=
  match o with
  | Some s => VStr s
  | None => VNull
  end.

(** Modelled from the spec: the [Ticket] schema of schemas.py, which is not
    among the sources.  A validated creation value has a title and the
    optional text fields description, status, priority and assignee, with
    the validator's defaults already filled in. *)
Record Ticket : Type := mk_Ticket {
  t_title : string;
  t_description : option string;
  t_status : option string;
  t_priority : option string;
  t_assignee : option string
}.

(** [class TicketCreate(Ticket): pass] *)
Abbreviation TicketCreate := Ticket.

(** [payload.model_dump()] of a creation value: every field. *)
Definition model_dump (p : TicketCreate) : dict :=
  <["title" := VStr (t_title p)]>
  (<["description" := opt_value (t_description p)]>
  (<["status" := opt_value (t_status p)]>
  (<["priority" := opt_value (t_priority p)]>
  (<["assignee" := opt_value (t_assignee p)]> ∅)))).

(** [TicketUpdate]: each field is unset ([None]), or set to null
    ([Some None]) or to a string. *)
Record TicketUpdate : Type := mk_TicketUpdate {
  u_title : option (option string);
  u_description : option (option string);
  u_status : option (option string);
  u_priority : option (option string);
  u_assignee : option (option string)
}.

Definition dump_field (k : string) (f : option (option string)) (m : dict) : dict :=
  match f with
  | Some v => <[k := opt_value v]> m
  | None => m
  end.

(** [payload.model_dump(exclude_unset=True)] *)
Definition model_dump_exclude_unset (p : TicketUpdate) : dict :=
  dump_field "title" (u_title p)
  (dump_field "description" (u_description p)
  (dump_field "status" (u_status p)
  (dump_field "priority" (u_priority p)
  (dump_field "assignee" (u_assignee p) ∅)))).

(** ** Response shaping *)

(** [not doc]: [None] and the empty dictionary are falsy. *)
Definition falsy (doc : option dict) : bool :=
  match doc with
  | None => true
  | Some d => bool_decide (d = ∅)
  end.

(** [d["id"] = str(d.pop("_id"))] when ["_id"] is a key of [d]. *)
Definition rename_id (d : dict) : dict :=
  match d !! "_id" with
  | Some v => <["id" := VStr (py_str v)]> (delete "_id" d)
  | None => d
  end.

Definition serialize_doc (doc : option dict) : option dict :=
  if falsy doc then doc
  else
    d ← doc;
    let d := rename_id d in
    Some (render <$> d).

(** ** Handlers *)

(** [read_root()] and [hello()] *)
Definition read_root : dict := {["message" := VStr "Hello from FastAPI Backend!"]}.
Definition hello : dict := {["message" := VStr "Hello from the backend API!"]}.

(** The dictionary [test_database] builds, one field per key. *)
Record diagnostics : Type := mk_diagnostics {
  backend : string;
  database_status : string;         (* "database" *)
  database_url : option string;
  database_name : option string;
  connection_status : string;
  collection_names : list string    (* "collections" *)
}.

Definition set_database (r : diagnostics) (s : string) : diagnostics :=
  mk_diagnostics (backend r) s (database_url r) (database_name r)
                 (connection_status r) (collection_names r).
Definition set_database_url (r : diagnostics) (s : option string) : diagnostics :=
  mk_diagnostics (backend r) (database_status r) s (database_name r)
                 (connection_status r) (collection_names r).
Definition set_database_name (r : diagnostics) (s : option string) : diagnostics :=
  mk_diagnostics (backend r) (database_status r) (database_url r) s
                 (connection_status r) (collection_names r).
Definition set_connection_status (r : diagnostics) (s : string) : diagnostics :=
  mk_diagnostics (backend r) (database_status r) (database_url r)
                 (database_name r) s (collection_names r).
Definition set_collections (r : diagnostics) (l : list string) : diagnostics :=
  mk_diagnostics (backend r) (database_status r) (database_url r)
                 (database_name r) (connection_status r) l.

(** Truthiness of an [Optional[str]]: [None] and [""] are falsy. *)
Definition truthy (o : option string) : bool :=
  match o with
  | Some s => negb (bool_decide (s = ""))
  | None => false
  end.

(** [test_database()], with [os.getenv] as [environ].  The one call that can
    raise, [db.list_collection_names()], sits in the inner [try]; its handler
    catches every [Exception], which leaves the outer handler nothing to
    catch. *)
Definition test_database (db : option database) (environ : gmap string string)
    : outcome diagnostics :=
  let response :=
    mk_diagnostics "✅ Running" "❌ Not Available" None None "Not Connected" [] in
  let response :=
    match db with
    | Some d =>
        let response := set_database response "✅ Available" in
        let response := set_database_url response (Some "✅ Configured") in
        let response :=
          set_database_name response (Some (default "✅ Connected" (db_name d))) in
        let response := set_connection_status response "Connected" in
        match list_collection_names d with
        | Listed collections =>
            let response := set_collections response (take 10 collections) in
            set_database response "✅ Connected & Working"
        | ListingFailed text =>
            set_database response
              ("⚠️  Connected but Error: " ++ str_take 50 text)
        end
    | None => set_database response "⚠️  Available but not initialized"
    end in
  let response :=
    set_database_url response
      (Some (if truthy (environ !! "DATABASE_URL") then "✅ Set" else "❌ Not Set")) in
  let response :=
    set_database_name response
      (Some (if truthy (environ !! "DATABASE_NAME") then "✅ Set" else "❌ Not Set")) in
  Returns response.

Definition not_configured {A} : outcome A :=
  Raises (HTTPException 500 "Database not configured").
Definition not_found {A} : outcome A :=
  Raises (HTTPException 404 "Ticket not found").
Definition invalid_id {A} : outcome A :=
  Raises (HTTPException 400 "Invalid ticket id").

(** [filter_q[k] = o] under [if o:] *)
Definition set_if_truthy (k : string) (o : option string) (filter_q : dict) : dict :=
  match o with
  | Some s => if truthy o then <[k := VStr s]> filter_q else filter_q
  | None => filter_q
  end.

Section Handlers.

(** The two helpers [main.py] imports from database.py. *)
Variable create_document :
  database -> oid -> string -> TicketCreate -> outcome string * database.
Variable get_documents : database -> string -> dict -> outcome (list dict).

Definition create_ticket (db : option database) (fresh : oid)
    (payload : TicketCreate) : outcome (option dict) * option database :=
  match db with
  | None => (not_configured, db)
  | Some d =>
      let '(created, d) := create_document d fresh "ticket" payload in
      (ticket_id ← created;
       id ← ObjectId ticket_id;
       let doc := find_one (coll d "ticket") {["_id" := VOid id]} in
       mret (serialize_doc doc),
       Some d)
  end.

Definition list_tickets (db : option database) (status priority : option string)
    : outcome (list (option dict)) :=
  match db with
  | None => not_configured
  | Some d =>
      let filter_q : dict := ∅ in
      let filter_q := set_if_truthy "status" status filter_q in
      let filter_q := set_if_truthy "priority" priority filter_q in
      docs ← get_documents d "ticket" filter_q;
      mret (map (fun d => serialize_doc (Some d)) docs)
  end.

End Handlers.

Definition get_ticket (db : option database) (ticket_id : string)
    : outcome (option dict) :=
  match db with
  | None => not_configured
  | Some d =>
      try_except
        (id ← ObjectId ticket_id;
         let doc := find_one (coll d "ticket") {["_id" := VOid id]} in
         if falsy doc then not_found
         else mret (serialize_doc doc))
        (fun _ => invalid_id)
  end.

Definition update_ticket (db : option database) (now : datetime)
    (ticket_id : string) (payload : TicketUpdate)
    : outcome (option dict) * option database :=
  match db with
  | None => (not_configured, db)
  | Some d =>
      let updates := model_dump_exclude_unset payload in
      let '(r, d) :=
        if bool_decide (updates = ∅) then
          (id ← ObjectId ticket_id;
           let doc := find_one (coll d "ticket") {["_id" := VOid id]} in
           if falsy doc then not_found
           else mret (serialize_doc doc),
           d)
        else
          let updates := <["updated_at" := VDatetime now]> updates in
          match ObjectId ticket_id with
          | Raises e => (Raises e, d)
          | Returns id =>
              let '(d, matched_count) :=
                db_update_one d "ticket" {["_id" := VOid id]} updates in
              if matched_count =? 0 then (not_found, d)
              else
                let doc := find_one (coll d "ticket") {["_id" := VOid id]} in
                (mret (serialize_doc doc), d)
          end in
      (try_except_reraising_http r (fun _ => invalid_id), Some d)
  end.

Definition delete_ticket (db : option database) (ticket_id : string)
    : outcome dict * option database :=
  match db with
  | None => (not_configured, db)
  | Some d =>
      let '(r, d) :=
        match ObjectId ticket_id with
        | Raises e => (Raises e, d)
        | Returns id =>
            let '(d, deleted_count) :=
              db_delete_one d "ticket" {["_id" := VOid id]} in
            if deleted_count =? 0 then (not_found, d)
            else
              (mret (<["status" := VStr "deleted"]> {["id" := VStr ticket_id]}), d)
        end in
      (try_except_reraising_http r (fun _ => invalid_id), Some d)
  end.

(** ** The helpers of database.py *)

(** Modelled from the spec: [create_document] of database.py, which is not
    among the sources.  [insert(document) -> id]: stores the document and
    returns its assigned identifier, as the string the caller parses back. *)
Definition create_document (d : database) (fresh : oid)
    (collection_name : string) (data : TicketCreate) : outcome string * database :=
  let '(inserted_id, d) :=
    db_insert_one d collection_name fresh (model_dump data) in
  (py_str <$> inserted_id, d).

(** Modelled from the spec: [get_documents] of database.py, which is not
    among the sources.  [findMany(filter)]: the documents matching every
    field of the filter exactly; an empty filter returns the entire
    collection. *)
Definition get_documents (d : database) (collection_name : string)
    (filter_dict : dict) : outcome (list dict) :=
  Returns (find (coll d collection_name) filter_dict).

(** ** Routing *)

Inductive http_method : Type := GET | POST | PUT | PATCH | DELETE.

#[global] Instance http_method_eq_dec : EqDecision http_method.
Proof. solve_decision. Defined.

(** The endpoints: the four pages [FastAPI()] serves on its own (the OpenAPI
    schema and the documentation pages), then the handlers of [main.py]. *)
Inductive endpoint : Type :=
  | ep_openapi | ep_swagger_ui_html | ep_swagger_ui_redirect | ep_redoc_html
  | ep_read_root | ep_hello | ep_test_database
  | ep_create_ticket | ep_list_tickets | ep_get_ticket
  | ep_update_ticket | ep_delete_ticket.

(** A path template, one segment at a time: a literal or a [{parameter}]. *)
Inductive segment : Type := Lit (s : string) | Param.

Definition tickets : list segment := [Lit "api"; Lit "tickets"].
Definition ticket_by_id : list segment := [Lit "api"; Lit "tickets"; Param].

(** The route table, in registration order: the routes [FastAPI()] sets up,
    then the decorated functions.  Decorators apply bottom-up, so
    [update_ticket] is registered for PUT and then for PATCH. *)
Definition routes : list (http_method * list segment * endpoint) :=
  [ (GET, [Lit "openapi.json"], ep_openapi);
    (GET, [Lit "docs"], ep_swagger_ui_html);
    (GET, [Lit "docs"; Lit "oauth2-redirect"], ep_swagger_ui_redirect);
    (GET, [Lit "redoc"], ep_redoc_html);
    (GET, [], ep_read_root);
    (GET, [Lit "api"; Lit "hello"], ep_hello);
    (GET, [Lit "test"], ep_test_database);
    (POST, tickets, ep_create_ticket);
    (GET, tickets, ep_list_tickets);
    (GET, ticket_by_id, ep_get_ticket);
    (PUT, ticket_by_id, ep_update_ticket);
    (PATCH, ticket_by_id, ep_update_ticket);
    (DELETE, ticket_by_id, ep_delete_ticket) ].

(** A path is the list of its segments: [[]] for [/], [["api"; "tickets"]]
    for [/api/tickets]; a trailing slash shows as a last empty segment
    ([["api"; "tickets"; ""]] for [/api/tickets/]).
    Matching a path against a template gives the parameter's value, if the
    template has one.  A parameter matches any non-empty segment. *)
Fixpoint match_path (t : list segment) (path : list string)
    (param : option string) : option (option string) :=
  match t, path with
  | [], [] => Some param
  | Lit s :: t', x :: path' =>
      if bool_decide (s = x) then match_path t' path' param else None
  | Param :: t', x :: path' =>
      if bool_decide (x = "") then None else match_path t' path' (Some x)
  | _, _ => None
  end.

Inductive resolution : Type :=
  | Matched (e : endpoint) (param : option string)
  | MethodNotAllowed
  | Redirect (path : list string)
  | NoRoute.

(** The first route whose path and method both match; failing that, 405 if
    some path matched and 404 otherwise. *)
Fixpoint resolve_in (rs : list (http_method * list segment * endpoint))
    (m : http_method) (path : list string) (partial : bool) : resolution :=
  match rs with
  | [] => if partial then MethodNotAllowed else NoRoute
  | (m', t, e) :: rs' =>
      match match_path t path None with
      | Some param =>
          if bool_decide (m' = m) then Matched e param
          else resolve_in rs' m path true
      | None => resolve_in rs' m path partial
      end
  end.

(** [path.rstrip("/")]: the path without its trailing empty segments. *)
Fixpoint rstrip_slashes (path : list string) : list string :=
  match path with
  | [] => []
  | x :: path' =>
      match rstrip_slashes path' with
      | [] => if bool_decide (x = "") then [] else [x]
      | rest => x :: rest
      end
  end.

(** The path the router tries when nothing matched ([redirect_slashes]):
    without the trailing slashes if there are any (nothing being left is no
    path), with one added otherwise.  [/] is not redirected. *)
Definition redirect_path (path : list string) : option (list string) :=
  match last path with
  | None => None
  | Some x =>
      if bool_decide (x = "")
      then match rstrip_slashes path with
           | [] => None
           | p => Some p
           end
      else Some (path ++ [""])%list
  end.

(** Some route matches the path, whatever its method. *)
Definition path_known (path : list string) : bool :=
  existsb (fun r => match match_path (snd (fst r)) path None with
                    | Some _ => true
                    | None => false
                    end) routes.

(** Routing: a route matching path and method; else 405 if a path matched;
    else a redirect to the path with or without its trailing slash if that
    one is known; else 404. *)
Definition resolve (m : http_method) (path : list string) : resolution :=
  match resolve_in routes m path false with
  | NoRoute =>
      match redirect_path path with
      | Some p => if path_known p then Redirect p else NoRoute
      | None => NoRoute
      end
  | r => r
  end.

(** A request after FastAPI has parsed it: the query parameters [status] and
    [priority] and the validated body, if any. *)
Inductive payload : Type :=
  | NoBody
  | CreateBody (p : TicketCreate)
  | UpdateBody (p : TicketUpdate).

Record request : Type := mk_request {
  req_method : http_method;
  req_path : list string;
  req_status : option string;
  req_priority : option string;
  req_body : payload
}.

(** A response body: what a handler returned, a page of the framework (not
    modelled further), or the 307 redirect of the router with its
    target. *)
Inductive body : Type :=
  | BDict (d : option dict)
  | BList (l : list (option dict))
  | BDiagnostics (r : diagnostics)
  | BFramework (e : endpoint)
  | BRedirect (location : list string).

(** What a request meets outside itself: the environment variables, the
    clock and the next identifier of the driver. *)
Record ambient : Type := mk_ambient {
  environ : gmap string string;
  utcnow : datetime;
  next_oid : oid
}.

Definition unprocessable {A} : outcome A :=
  Raises (HTTPException 422 "Unprocessable Entity").

(** The application: route the request, call the endpoint. *)
Definition app (a : ambient) (db : option database) (r : request)
    : outcome body * option database :=
  match resolve (req_method r) (req_path r) with
  | NoRoute => (Raises (HTTPException 404 "Not Found"), db)
  | MethodNotAllowed => (Raises (HTTPException 405 "Method Not Allowed"), db)
  | Redirect p => (Returns (BRedirect p), db)
  | Matched e param =>
      let ticket_id := default "" param in
      match e with
      | ep_openapi | ep_swagger_ui_html | ep_swagger_ui_redirect
      | ep_redoc_html => (Returns (BFramework e), db)
      | ep_read_root => (Returns (BDict (Some read_root)), db)
      | ep_hello => (Returns (BDict (Some hello)), db)
      | ep_test_database =>
          (BDiagnostics <$> test_database db (environ a), db)
      | ep_create_ticket =>
          match req_body r with
          | CreateBody p =>
              let '(o, db) := create_ticket create_document db (next_oid a) p in
              (BDict <$> o, db)
          | _ => (unprocessable, db)
          end
      | ep_list_tickets =>
          (BList <$> list_tickets get_documents db (req_status r) (req_priority r),
           db)
      | ep_get_ticket => (BDict <$> get_ticket db ticket_id, db)
      | ep_update_ticket =>
          match req_body r with
          | UpdateBody p =>
              let '(o, db) := update_ticket db (utcnow a) ticket_id p in
              (BDict <$> o, db)
          | _ => (unprocessable, db)
          end
      | ep_delete_ticket =>
          let '(o, db) := delete_ticket db ticket_id in
          ((fun d => BDict (Some d)) <$> o, db)
      end
  end.

(** * Properties *)

(** ** Identifiers: [ObjectId(str(o)) == o] *)

Lemma hex_value_hex_char (d : N) : d < 16 -> hex_value (hex_char d) = Some d.
Proof.
  intros Hd. destruct d as [|p]; [reflexivity|].
  repeat (destruct p as [p|p|]; try reflexivity; try lia).
Qed.

Lemma hex_char_plain (d : N) :
  d < 16 -> is_continuation (hex_char d) = false /\ is_space (hex_char d) = false.
Proof.
  intros Hd. destruct d as [|p]; [split; reflexivity|].
  repeat (destruct p as [p|p|]; try (split; reflexivity); try lia).
Qed.

Lemma byte_digits (n : N) :
  n mod 256 / 16 < 16 /\ n mod 16 < 16 /\
  n mod 256 / 16 * 16 + n mod 16 = n mod 256.
Proof.
  assert (H256 : n mod 256 < 256) by (apply N.mod_lt; lia).
  assert (H16 : n mod 16 < 16) by (apply N.mod_lt; lia).
  pose proof (N.Div0.mod_mul_r n 16 16) as Hm. change (16 * 16) with 256 in Hm.
  assert (Hq : (n / 16) mod 16 < 16) by (apply N.mod_lt; lia).
  assert (Hd : n mod 256 / 16 = (n / 16) mod 16).
  { rewrite Hm. rewrite N.add_comm, N.mul_comm, N.div_add_l by lia.
    rewrite (N.div_small (n mod 16) 16) by exact H16. lia. }
  rewrite Hd. repeat split; lia.
Qed.

Lemma py_len_hex_bytes (w : nat) (n : N) (acc : string) :
  py_len (hex_bytes w n acc) = (2 * w + py_len acc)%nat.
Proof.
  revert n acc. induction w as [|w IH]; intros n acc; simpl; [reflexivity|].
  rewrite IH. destruct (byte_digits n) as (H1 & H2 & _).
  cbn [py_len].
  rewrite (proj1 (hex_char_plain _ H1)), (proj1 (hex_char_plain _ H2)). lia.
Qed.

Lemma fromhex_hex_bytes (w : nat) (n : N) (acc : string) (c : nat) (a : N) :
  fromhex (hex_bytes w n acc) c a
  = fromhex acc (w + c) (a * 256 ^ N.of_nat w + n mod 256 ^ N.of_nat w).
Proof.
  revert n acc c a. induction w as [|w IH]; intros n acc c a.
  - simpl. f_equal. rewrite N.mod_1_r. lia.
  - cbn [hex_bytes]. rewrite IH. cbn [fromhex].
    destruct (byte_digits n) as (H1 & H2 & Hb).
    rewrite (proj2 (hex_char_plain _ H1)).
    rewrite (hex_value_hex_char _ H1), (hex_value_hex_char _ H2).
    rewrite Hb. replace (S (w + c)) with (S w + c)%nat by lia. f_equal.
    rewrite Nat2N.inj_succ, N.pow_succ_r'.
    rewrite (N.Div0.mod_mul_r n 256 (256 ^ N.of_nat w)). lia.
Qed.

Lemma ObjectId_oid_str (o : oid) : o < oid_bound -> ObjectId (oid_str o) = Returns o.
Proof.
  intros Ho. unfold ObjectId, oid_str, oid_size.
  rewrite (proj2 (N.ltb_lt _ _) Ho).
  rewrite py_len_hex_bytes. cbn [py_len Nat.mul Nat.add Nat.eqb].
  rewrite fromhex_hex_bytes. cbn [fromhex Nat.add].
  change (256 ^ N.of_nat 12) with oid_bound.
  rewrite N.Div0.mod_mod, N.mod_small by exact Ho. reflexivity.
Qed.

Lemma ObjectId_raises (s : string) (e : exn) :
  ObjectId s = Raises e -> e = InvalidId s.
Proof.
  unfold ObjectId. destruct (Nat.eqb _ _); [|intros [= <-]; reflexivity].
  destruct (fromhex s 0 0) as [[count n]|]; [discriminate|].
  intros [= <-]. reflexivity.
Qed.

(** ** Queries *)

Lemma matches_spec (flt d : dict) :
  matches flt d = true <->
  forall k v, flt !! k = Some v -> storable v = true /\ d !! k = Some v.
Proof. unfold matches. rewrite bool_decide_eq_true. reflexivity. Qed.

Lemma matches_empty (d : dict) : matches ∅ d = true.
Proof. apply matches_spec. intros k v Hk. rewrite lookup_empty in Hk. discriminate. Qed.

Lemma matches_singleton (k : string) (v : value) (d : dict) :
  matches {[k := v]} d = storable v && bool_decide (d !! k = Some v).
Proof.
  unfold matches.
  rewrite (bool_decide_ext _ _
             (map_Forall_singleton
                (fun k v => storable v = true /\ d !! k = Some v) k v)).
  rewrite bool_decide_and. destruct (storable v); reflexivity.
Qed.

Lemma matches_insert (k : string) (v : value) (flt d : dict) :
  flt !! k = None ->
  matches (<[k := v]> flt) d
  = storable v && bool_decide (d !! k = Some v) && matches flt d.
Proof.
  intros Hk. unfold matches.
  rewrite (bool_decide_ext _ _
             (map_Forall_insert
                (fun k v => storable v = true /\ d !! k = Some v) flt k v Hk)).
  rewrite !bool_decide_and. destruct (storable v); reflexivity.
Qed.

Lemma find_empty (c : collection) : find c ∅ = c.
Proof.
  unfold find. induction c as [|d c IH]; simpl; [reflexivity|].
  rewrite matches_empty. f_equal. exact IH.
Qed.

Lemma find_one_Some (c : collection) (flt doc : dict) :
  find_one c flt = Some doc ->
  exists i, c !! i = Some doc /\ matches flt doc = true /\
            forall j x, (j < i)%nat -> c !! j = Some x -> matches flt x = false.
Proof.
  unfold find_one, find. induction c as [|d c IH]; simpl; [discriminate|].
  destruct (matches flt d) eqn:Hd; simpl.
  - intros [= ->]. exists 0%nat. repeat split; [exact Hd|]. intros j x Hj. lia.
  - intros Hf. destruct (IH Hf) as (i & Hi & Hm & Hlt).
    exists (S i). repeat split; [exact Hi|exact Hm|].
    intros [|j] x Hj; simpl; [intros [= <-]; exact Hd|].
    apply Hlt. lia.
Qed.

Lemma find_one_None (c : collection) (flt : dict) :
  find_one c flt = None <-> forall x, x ∈ c -> matches flt x = false.
Proof.
  unfold find_one, find. induction c as [|d c IH]; simpl.
  - split; [|reflexivity]. intros _ x Hx. inversion Hx.
  - destruct (matches flt d) eqn:Hd; simpl.
    + split; [discriminate|]. intros H. rewrite (H d) in Hd; [discriminate|left].
    + rewrite IH. split.
      * intros H x [->|Hx]%elem_of_cons; [exact Hd|exact (H x Hx)].
      * intros H x Hx. apply H. right. exact Hx.
Qed.

Lemma find_one_app_fresh (c : collection) (flt doc : dict) :
  (forall x, x ∈ c -> matches flt x = false) ->
  matches flt doc = true ->
  find_one (c ++ [doc])%list flt = Some doc.
Proof.
  intros Hc Hd. unfold find_one, find.
  induction c as [|d c IH]; simpl.
  - rewrite Hd. reflexivity.
  - rewrite (Hc d) by left. apply IH. intros x Hx. apply Hc. right. exact Hx.
Qed.

Lemma existsb_matches_false (c : collection) (flt : dict) :
  (forall x, x ∈ c -> matches flt x = false) -> existsb (matches flt) c = false.
Proof.
  induction c as [|d c IH]; intros H; simpl; [reflexivity|].
  rewrite (H d) by left. simpl. apply IH. intros x Hx. apply H. right. exact Hx.
Qed.

Lemma coll_set_coll (d : database) (name : string) (c : collection) :
  coll (set_coll d name c) name = c.
Proof. unfold coll, set_coll. simpl. rewrite lookup_insert_eq. reflexivity. Qed.

Lemma coll_set_coll_ne (d : database) (name name' : string) (c : collection) :
  name <> name' -> coll (set_coll d name c) name' = coll d name'.
Proof.
  intros Hne. unfold coll, set_coll. simpl.
  rewrite lookup_insert_ne by exact Hne. reflexivity.
Qed.

(** [update_one] rewrites the first match in place. *)
Lemma update_one_found (c : collection) (flt updates doc : dict) (i : nat) :
  c !! i = Some doc -> matches flt doc = true ->
  (forall j x, (j < i)%nat -> c !! j = Some x -> matches flt x = false) ->
  update_one c flt updates = (<[i := (bson_value <$> updates) ∪ doc]> c, 1).
Proof.
  revert i. induction c as [|d c IH]; intros i Hi Hm Hlt; [discriminate|].
  destruct i as [|i]; simpl in *.
  - injection Hi as ->. rewrite Hm. reflexivity.
  - rewrite (Hlt 0%nat d) by (try lia; reflexivity).
    rewrite (IH i Hi Hm); [reflexivity|].
    intros j x Hj Hx. apply (Hlt (S j) x); [lia|exact Hx].
Qed.

Lemma update_one_missing (c : collection) (flt updates : dict) :
  (forall x, x ∈ c -> matches flt x = false) ->
  update_one c flt updates = (c, 0).
Proof.
  induction c as [|d c IH]; intros H; simpl; [reflexivity|].
  rewrite (H d) by left. rewrite IH; [reflexivity|].
  intros x Hx. apply H. right. exact Hx.
Qed.

Lemma delete_one_found (c : collection) (flt doc : dict) (i : nat) :
  c !! i = Some doc -> matches flt doc = true ->
  (forall j x, (j < i)%nat -> c !! j = Some x -> matches flt x = false) ->
  delete_one c flt = (delete i c, 1).
Proof.
  revert i. induction c as [|d c IH]; intros i Hi Hm Hlt; [discriminate|].
  destruct i as [|i]; simpl in *.
  - injection Hi as ->. rewrite Hm. reflexivity.
  - rewrite (Hlt 0%nat d) by (try lia; reflexivity).
    rewrite (IH i Hi Hm); [reflexivity|].
    intros j x Hj Hx. apply (Hlt (S j) x); [lia|exact Hx].
Qed.

Lemma delete_one_missing (c : collection) (flt : dict) :
  (forall x, x ∈ c -> matches flt x = false) ->
  delete_one c flt = (c, 0).
Proof.
  induction c as [|d c IH]; intros H; simpl; [reflexivity|].
  rewrite (H d) by left. rewrite IH; [reflexivity|].
  intros x Hx. apply H. right. exact Hx.
Qed.

(** The first match after an in-place rewrite that still matches. *)
Lemma find_one_insert (c : collection) (flt doc doc' : dict) (i : nat) :
  c !! i = Some doc -> matches flt doc' = true ->
  (forall j x, (j < i)%nat -> c !! j = Some x -> matches flt x = false) ->
  find_one (<[i := doc']> c) flt = Some doc'.
Proof.
  unfold find_one, find.
  revert i. induction c as [|d c IH]; intros i Hi Hm Hlt; [discriminate|].
  destruct i as [|i]; simpl in *.
  - rewrite Hm. reflexivity.
  - rewrite (Hlt 0%nat d) by (try lia; reflexivity).
    apply (IH i Hi Hm). intros j x Hj Hx. apply (Hlt (S j) x); [lia|exact Hx].
Qed.

(** ** Response shaping *)

Lemma serialize_doc_Some (d : dict) :
  serialize_doc (Some d) = Some (render <$> rename_id d).
Proof.
  unfold serialize_doc, falsy. case_bool_decide as Hd; [|reflexivity].
  subst d. unfold rename_id. rewrite lookup_empty, fmap_empty. reflexivity.
Qed.

Lemma rename_id_lookup_id (d : dict) :
  rename_id d !! "_id" = None.
Proof.
  unfold rename_id. destruct (d !! "_id") as [v|] eqn:Hid; [|exact Hid].
  rewrite lookup_insert_ne by discriminate. apply lookup_delete_eq.
Qed.

Lemma rename_id_lookup_other (d : dict) (k : string) :
  k <> "_id" -> (k = "id" -> d !! "_id" = None) -> rename_id d !! k = d !! k.
Proof.
  intros Hk Hid. unfold rename_id.
  destruct (d !! "_id") as [v|] eqn:Hv; [|reflexivity].
  rewrite lookup_insert_ne by (intros <-; specialize (Hid eq_refl); discriminate).
  apply lookup_delete_ne. congruence.
Qed.

(** [render] leaves the values of a ticket's text fields alone, and so does
    the store. *)
Definition plain (v : value) : Prop :=
  match v with
  | VDatetime _ | VDate _ => False
  | _ => True
  end.

Lemma render_plain (v : value) : plain v -> render v = v.
Proof. destruct v; simpl; intros H; try reflexivity; destruct H. Qed.

Lemma bson_value_plain (v : value) : plain v -> bson_value v = v.
Proof. destruct v; simpl; intros H; try reflexivity; destruct H. Qed.

Lemma plain_opt_value (o : option string) : plain (opt_value o).
Proof. destruct o; exact I. Qed.

Lemma fmap_fixed (f : value -> value) (m : dict) :
  (forall k v, m !! k = Some v -> f v = v) -> f <$> m = m.
Proof.
  intros H. apply map_eq. intros k. rewrite lookup_fmap.
  destruct (m !! k) as [v|] eqn:Hk; simpl; [|reflexivity].
  f_equal. exact (H k v Hk).
Qed.

(** C8, as the code has it. Shaping a stored document: the result has no
    ["_id"]; where the document had one, ["id"] holds its string form,
    whatever the document held under ["id"] before; every other field (any
    key but ["_id"], and ["id"] itself when there was no ["_id"] to rename)
    keeps its key, a [datetime] or [date] value replaced by its ISO-8601
    text and any other value passed through unchanged. *)
Theorem serialize_doc_shapes (d : dict) :
  exists d', serialize_doc (Some d) = Some d' /\
    d' !! "_id" = None /\
    (forall v, d !! "_id" = Some v -> d' !! "id" = Some (VStr (py_str v))) /\
    (forall k, k <> "_id" -> (k = "id" -> d !! "_id" = None) ->
       d' !! k = match d !! k with
                 | Some (VDatetime t) => Some (VStr (datetime_isoformat t))
                 | Some (VDate t) => Some (VStr (date_isoformat t))
                 | Some v => Some v
                 | None => None
                 end).
Proof.
  exists (render <$> rename_id d). split; [apply serialize_doc_Some|].
  split; [|split].
  - rewrite lookup_fmap, rename_id_lookup_id. reflexivity.
  - intros v Hv. rewrite lookup_fmap. unfold rename_id. rewrite Hv.
    rewrite lookup_insert_eq. reflexivity.
  - intros k Hk Hid. rewrite lookup_fmap, rename_id_lookup_other by assumption.
    destruct (d !! k) as [[]|]; reflexivity.
Qed.

Definition shadowed_doc : dict :=
  <["_id" := VOid 42]> (<["id" := VStr "legacy-7"]> (<["title" := VStr "Old"]> ∅)).

(** C8 as stated fails on a document that holds a field ["id"] of its own
    beside ["_id"]: that field is not passed through, the renamed
    identifier takes its place. *)
Lemma serialize_doc_overwrites_id :
  shadowed_doc !! "id" = Some (VStr "legacy-7") /\
  exists d', serialize_doc (Some shadowed_doc) = Some d' /\
    d' !! "id" = Some (VStr "00000000000000000000002a") /\
    d' !! "id" <> shadowed_doc !! "id".
Proof.
  split; [reflexivity|].
  exists (render <$> rename_id shadowed_doc).
  split; [apply serialize_doc_Some|].
  assert (H : (render <$> rename_id shadowed_doc) !! "id"
              = Some (VStr "00000000000000000000002a")) by reflexivity.
  split; [exact H|]. rewrite H. discriminate.
Qed.

Definition sample_doc : dict :=
  <["_id" := VOid 42]>
  (<["title" := VStr "Fix login bug"]>
  (<["updated_at" := VDatetime (mk_datetime 2024 1 2 3 4 5 0)]> ∅)).

Lemma serialize_doc_shapes_witness :
  exists d', serialize_doc (Some sample_doc) = Some d' /\
    d' !! "id" = Some (VStr "00000000000000000000002a") /\
    d' !! "title" = Some (VStr "Fix login bug") /\
    d' !! "updated_at" = Some (VStr "2024-01-02T03:04:05").
Proof.
  destruct (serialize_doc_shapes sample_doc) as (d' & Hd' & _ & Hid & Hk).
  exists d'. split; [exact Hd'|]. split; [|split].
  - exact (Hid (VOid 42) eq_refl).
  - refine (Hk "title" _ _); [discriminate|discriminate].
  - refine (Hk "updated_at" _ _); [discriminate|discriminate].
Defined.

(** ** Create, then read *)

Lemma model_dump_lookup_id (p : TicketCreate) : model_dump p !! "_id" = None.
Proof.
  unfold model_dump. repeat (rewrite lookup_insert_ne by discriminate).
  apply lookup_empty.
Qed.

Lemma model_dump_plain (p : TicketCreate) (k : string) (v : value) :
  model_dump p !! k = Some v -> plain v.
Proof.
  unfold model_dump.
  repeat (rewrite lookup_insert_Some; intros [[_ <-]|[_ H]];
          [first [exact I | apply plain_opt_value]|revert H]).
  rewrite lookup_empty. discriminate.
Qed.

Lemma matches_by_id (id : oid) (x : dict) :
  matches {["_id" := VOid id]} x
  = (id <? oid_bound) && bool_decide (x !! "_id" = Some (VOid id)).
Proof. apply matches_singleton. Qed.

Lemma matches_by_id_true (id : oid) (x : dict) :
  matches {["_id" := VOid id]} x = true ->
  x !! "_id" = Some (VOid id) /\ id < oid_bound.
Proof.
  rewrite matches_by_id. intros [Hb Hx]%andb_true_iff.
  apply N.ltb_lt in Hb. apply bool_decide_eq_true in Hx. split; assumption.
Qed.

Lemma matches_by_id_false (id : oid) (x : dict) :
  x !! "_id" <> Some (VOid id) -> matches {["_id" := VOid id]} x = false.
Proof.
  intros Hx. rewrite matches_by_id, (bool_decide_eq_false_2 _ Hx).
  apply andb_false_r.
Qed.

Lemma matches_by_id_intro (id : oid) (x : dict) :
  id < oid_bound -> x !! "_id" = Some (VOid id) ->
  matches {["_id" := VOid id]} x = true.
Proof.
  intros Hb Hx. rewrite matches_by_id, (bool_decide_eq_true_2 _ Hx).
  rewrite (proj2 (N.ltb_lt _ _) Hb). reflexivity.
Qed.

(** The stored form of a new ticket. *)
Definition stored (fresh : oid) (p : TicketCreate) : dict :=
  <["_id" := VOid fresh]> (model_dump p).

Lemma bson_stored (fresh : oid) (p : TicketCreate) :
  bson_value <$> stored fresh p = stored fresh p.
Proof.
  apply fmap_fixed. intros k v. unfold stored.
  rewrite lookup_insert_Some. intros [[_ <-]|[_ H]]; [reflexivity|].
  apply bson_value_plain. exact (model_dump_plain p k v H).
Qed.

Lemma create_document_fresh (d : database) (fresh : oid) (p : TicketCreate) :
  (forall x, x ∈ coll d "ticket" -> x !! "_id" <> Some (VOid fresh)) ->
  create_document d fresh "ticket" p
  = (Returns (oid_str fresh),
     set_coll d "ticket" (coll d "ticket" ++ [stored fresh p])%list).
Proof.
  intros Hfresh. unfold create_document, db_insert_one, insert_one.
  rewrite model_dump_lookup_id. cbn [default].
  rewrite existsb_matches_false.
  - fold (stored fresh p). rewrite bson_stored. reflexivity.
  - intros x Hx. apply matches_by_id_false. exact (Hfresh x Hx).
Qed.

Lemma serialize_stored (fresh : oid) (p : TicketCreate) :
  serialize_doc (Some (stored fresh p))
  = Some (<["id" := VStr (oid_str fresh)]> (model_dump p)).
Proof.
  rewrite serialize_doc_Some. f_equal.
  unfold rename_id, stored. rewrite lookup_insert_eq.
  rewrite delete_insert_eq.
  rewrite (delete_id (model_dump p)) by apply model_dump_lookup_id.
  apply fmap_fixed. intros k v.
  rewrite lookup_insert_Some. intros [[_ <-]|[_ H]]; [reflexivity|].
  apply render_plain. exact (model_dump_plain p k v H).
Qed.

(** C1. Creating a ticket from a payload and reading it back by the returned
    id: with [fresh], the identifier the driver assigns, a well-formed one
    not yet in the collection, POST returns a ticket carrying its id, GET
    with that id returns the same ticket, and every field of it other than
    ["id"] and ["updated_at"] is the payload's. *)
Theorem create_then_get (d : database) (fresh : oid) (payload : TicketCreate) :
  fresh < oid_bound ->
  (forall x, x ∈ coll d "ticket" -> x !! "_id" <> Some (VOid fresh)) ->
  exists (d' : database) (ticket : dict) (id : string),
    create_ticket create_document (Some d) fresh payload
      = (Returns (Some ticket), Some d') /\
    ticket !! "id" = Some (VStr id) /\
    get_ticket (Some d') id = Returns (Some ticket) /\
    forall k, k <> "id" -> k <> "updated_at" ->
              ticket !! k = model_dump payload !! k.
Proof.
  intros Hbound Hfresh.
  set (c' := (coll d "ticket" ++ [stored fresh payload])%list).
  assert (Hfind : find_one c' {["_id" := VOid fresh]} = Some (stored fresh payload)).
  { apply find_one_app_fresh.
    - intros x Hx. apply matches_by_id_false. exact (Hfresh x Hx).
    - apply matches_by_id_intro; [exact Hbound|].
      unfold stored. apply lookup_insert_eq. }
  exists (set_coll d "ticket" c'),
         (<["id" := VStr (oid_str fresh)]> (model_dump payload)),
         (oid_str fresh).
  split; [|split; [|split]].
  - unfold create_ticket. rewrite create_document_fresh by exact Hfresh.
    fold c'. cbn [mbind outcome_bind].
    rewrite ObjectId_oid_str by exact Hbound. cbn [mbind outcome_bind].
    rewrite coll_set_coll, Hfind, serialize_stored. reflexivity.
  - apply lookup_insert_eq.
  - unfold get_ticket. rewrite ObjectId_oid_str by exact Hbound.
    cbn [mbind outcome_bind]. rewrite coll_set_coll, Hfind.
    unfold falsy. rewrite bool_decide_eq_false_2.
    + rewrite serialize_stored. reflexivity.
    + unfold stored. apply insert_non_empty.
  - intros k Hk _. apply lookup_insert_ne. congruence.
Qed.

Definition empty_db : database := mk_database (Some "tickets") (Listed []) ∅.

Definition login_bug : TicketCreate :=
  mk_Ticket "Fix login bug" None (Some "open") (Some "high") None.

Lemma create_then_get_witness :
  exists (d' : database) (ticket : dict) (id : string),
    create_ticket create_document (Some empty_db) 255 login_bug
      = (Returns (Some ticket), Some d') /\
    ticket !! "id" = Some (VStr id) /\
    get_ticket (Some d') id = Returns (Some ticket) /\
    forall k, k <> "id" -> k <> "updated_at" ->
              ticket !! k = model_dump login_bug !! k.
Proof.
  apply (create_then_get empty_db 255 login_bug).
  - reflexivity.
  - intros x Hx. vm_compute in Hx. inversion Hx.
Defined.

(** ** Reading one ticket *)

Lemma found_not_falsy (c : collection) (id : oid) (doc : dict) :
  find_one c {["_id" := VOid id]} = Some doc ->
  doc !! "_id" = Some (VOid id) /\ falsy (Some doc) = false.
Proof.
  intros Hf. destruct (find_one_Some _ _ _ Hf) as (i & _ & Hm & _).
  apply matches_by_id_true in Hm as [Hm _].
  split; [exact Hm|]. unfold falsy. apply bool_decide_eq_false.
  intros ->. rewrite lookup_empty in Hm. discriminate.
Qed.

Lemma get_ticket_found (d : database) (ticket_id : string) (id : oid) (doc : dict) :
  ObjectId ticket_id = Returns id ->
  find_one (coll d "ticket") {["_id" := VOid id]} = Some doc ->
  get_ticket (Some d) ticket_id = Returns (serialize_doc (Some doc)).
Proof.
  intros Hid Hf. unfold get_ticket. rewrite Hid. cbn [mbind outcome_bind].
  rewrite Hf. destruct (found_not_falsy _ _ _ Hf) as [_ ->]. reflexivity.
Qed.

Lemma get_ticket_malformed (d : database) (ticket_id : string) (e : exn) :
  ObjectId ticket_id = Raises e ->
  get_ticket (Some d) ticket_id = Raises (HTTPException 400 "Invalid ticket id").
Proof. intros Hid. unfold get_ticket. rewrite Hid. reflexivity. Qed.

(** The 404 raised inside the [try] is itself an [Exception]: the handler
    of [get_ticket] catches it and answers 400. *)
Lemma get_ticket_absent (d : database) (ticket_id : string) (id : oid) :
  ObjectId ticket_id = Returns id ->
  find_one (coll d "ticket") {["_id" := VOid id]} = None ->
  get_ticket (Some d) ticket_id = Raises (HTTPException 400 "Invalid ticket id").
Proof.
  intros Hid Hf. unfold get_ticket. rewrite Hid. cbn [mbind outcome_bind].
  rewrite Hf. reflexivity.
Qed.

Lemma get_ticket_never_404 (db : option database) (ticket_id : string) (detail : string) :
  get_ticket db ticket_id <> Raises (HTTPException 404 detail).
Proof.
  unfold get_ticket. destruct db as [d|]; [|discriminate].
  destruct (ObjectId ticket_id) as [id|e]; cbn [mbind outcome_bind try_except];
    [|discriminate].
  destruct (falsy _); discriminate.
Qed.

Definition absent_id : string := "65f0c0ffee0123456789abcd".

(** C2. A well-formed id with no ticket behind it: [ObjectId] parses it, the
    collection holds nothing under it, and [get_ticket] raises 400, where
    [delete_ticket] on the same input raises 404. *)
Theorem get_ticket_absent_is_400 :
  ObjectId absent_id = Returns 31549039604097840347949411277 /\
  find_one (coll empty_db "ticket") {["_id" := VOid 31549039604097840347949411277]}
    = None /\
  get_ticket (Some empty_db) absent_id
    = Raises (HTTPException 400 "Invalid ticket id") /\
  fst (delete_ticket (Some empty_db) absent_id)
    = Raises (HTTPException 404 "Ticket not found").
Proof. repeat split; vm_compute; reflexivity. Qed.

(** ** Partial updates *)

Definition status_only (v : option string) : TicketUpdate :=
  mk_TicketUpdate None None (Some v) None None.

Definition no_fields : TicketUpdate := mk_TicketUpdate None None None None None.

(** What [$set] writes for a status-only update stamped at [now]. *)
Definition status_stamp (now : datetime) (v : option string) : dict :=
  <["updated_at" := VDatetime (bson_datetime now)]>
  (<["status" := opt_value v]> ∅).

Lemma bson_status_updates (now : datetime) (v : option string) :
  bson_value <$>
    <["updated_at" := VDatetime now]> (model_dump_exclude_unset (status_only v))
  = status_stamp now v.
Proof.
  unfold model_dump_exclude_unset, status_only, status_stamp, dump_field. simpl.
  rewrite !fmap_insert, fmap_empty. simpl.
  rewrite (bson_value_plain (opt_value v)) by apply plain_opt_value.
  reflexivity.
Qed.

Lemma status_stamp_lookup_other (now : datetime) (v : option string) (k : string) :
  k <> "status" -> k <> "updated_at" -> status_stamp now v !! k = None.
Proof.
  intros Hs Hu. unfold status_stamp.
  rewrite !lookup_insert_ne by congruence. apply lookup_empty.
Qed.

(** C3. A PATCH that supplies exactly [status], on an existing ticket: the
    ticket is rewritten in place, the response is the rewritten ticket, its
    [status] is the supplied value, its [updated_at] is the service's clock
    (as the store keeps it), and every other field is as before. *)
Theorem patch_status_only (d : database) (now : datetime) (ticket_id : string)
    (id : oid) (v : option string) (doc : dict) :
  ObjectId ticket_id = Returns id ->
  find_one (coll d "ticket") {["_id" := VOid id]} = Some doc ->
  exists (i : nat) (doc' : dict),
    coll d "ticket" !! i = Some doc /\
    update_ticket (Some d) now ticket_id (status_only v)
      = (Returns (serialize_doc (Some doc')),
         Some (set_coll d "ticket" (<[i := doc']> (coll d "ticket")))) /\
    find_one (<[i := doc']> (coll d "ticket")) {["_id" := VOid id]} = Some doc' /\
    doc' !! "status" = Some (opt_value v) /\
    doc' !! "updated_at" = Some (VDatetime (bson_datetime now)) /\
    forall k, k <> "status" -> k <> "updated_at" -> doc' !! k = doc !! k.
Proof.
  intros Hid Hf.
  destruct (find_one_Some _ _ _ Hf) as (i & Hi & Hm & Hlt).
  set (doc' := status_stamp now v ∪ doc).
  assert (Hother : forall k, k <> "status" -> k <> "updated_at" ->
                             doc' !! k = doc !! k).
  { intros k Hs Hu. unfold doc'.
    apply lookup_union_r, status_stamp_lookup_other; assumption. }
  assert (Hm' : matches {["_id" := VOid id]} doc' = true).
  { destruct (matches_by_id_true _ _ Hm) as [Hd Hb].
    apply matches_by_id_intro; [exact Hb|].
    rewrite Hother by discriminate. exact Hd. }
  assert (Hf' : find_one (<[i := doc']> (coll d "ticket")) {["_id" := VOid id]}
                = Some doc').
  { exact (find_one_insert _ _ doc doc' i Hi Hm' Hlt). }
  exists i, doc'. split; [exact Hi|]. split; [|split; [exact Hf'|split; [|split]]].
  - unfold update_ticket.
    rewrite bool_decide_eq_false_2
      by (cbv [model_dump_exclude_unset status_only dump_field u_title
               u_description u_status u_priority u_assignee];
          apply insert_non_empty).
    rewrite Hid. unfold db_update_one.
    rewrite (update_one_found _ _ _ doc i Hi Hm Hlt).
    rewrite bson_status_updates. fold doc'.
    change (1 =? 0) with false. cbv iota beta.
    rewrite coll_set_coll, Hf'. reflexivity.
  - unfold doc', status_stamp. apply lookup_union_Some_l.
    rewrite lookup_insert_ne by discriminate. apply lookup_insert_eq.
  - unfold doc', status_stamp. apply lookup_union_Some_l. apply lookup_insert_eq.
  - exact Hother.
Qed.

(** C4. A PATCH with no field, on an existing ticket: the response is the
    current ticket, as GET gives it, and the store is left as it was. *)
Theorem patch_empty_is_noop (d : database) (now : datetime) (ticket_id : string)
    (id : oid) (doc : dict) :
  ObjectId ticket_id = Returns id ->
  find_one (coll d "ticket") {["_id" := VOid id]} = Some doc ->
  update_ticket (Some d) now ticket_id no_fields
    = (Returns (serialize_doc (Some doc)), Some d) /\
  get_ticket (Some d) ticket_id = Returns (serialize_doc (Some doc)).
Proof.
  intros Hid Hf. split; [|exact (get_ticket_found d ticket_id id doc Hid Hf)].
  unfold update_ticket, no_fields, model_dump_exclude_unset, dump_field. simpl.
  rewrite bool_decide_eq_true_2 by reflexivity.
  rewrite Hid. cbn [mbind outcome_bind]. rewrite Hf.
  destruct (found_not_falsy _ _ _ Hf) as [_ ->]. reflexivity.
Qed.

Definition one_ticket_db : database :=
  mk_database (Some "tickets") (Listed ["ticket"])
              {["ticket" := [stored 255 login_bug]]}.

Definition noon : datetime := mk_datetime 2024 1 2 12 0 0 123456.

Lemma patch_status_only_witness :
  exists (i : nat) (doc' : dict),
    coll one_ticket_db "ticket" !! i = Some (stored 255 login_bug) /\
    update_ticket (Some one_ticket_db) noon "0000000000000000000000ff"
                  (status_only (Some "closed"))
      = (Returns (serialize_doc (Some doc')),
         Some (set_coll one_ticket_db "ticket"
                        (<[i := doc']> (coll one_ticket_db "ticket")))) /\
    find_one (<[i := doc']> (coll one_ticket_db "ticket")) {["_id" := VOid 255]}
      = Some doc' /\
    doc' !! "status" = Some (opt_value (Some "closed")) /\
    doc' !! "updated_at" = Some (VDatetime (bson_datetime noon)) /\
    forall k, k <> "status" -> k <> "updated_at" ->
              doc' !! k = stored 255 login_bug !! k.
Proof.
  apply (patch_status_only one_ticket_db noon "0000000000000000000000ff" 255
           (Some "closed") (stored 255 login_bug)).
  - vm_compute. reflexivity.
  - vm_compute. reflexivity.
Defined.

Lemma patch_empty_is_noop_witness :
  update_ticket (Some one_ticket_db) noon "0000000000000000000000ff" no_fields
    = (Returns (serialize_doc (Some (stored 255 login_bug))), Some one_ticket_db) /\
  get_ticket (Some one_ticket_db) "0000000000000000000000ff"
    = Returns (serialize_doc (Some (stored 255 login_bug))).
Proof.
  apply (patch_empty_is_noop one_ticket_db noon "0000000000000000000000ff" 255
           (stored 255 login_bug)).
  - vm_compute. reflexivity.
  - vm_compute. reflexivity.
Defined.

(** ** PATCH and PUT *)

Lemma resolve_in_patch_put (path : list string) :
  resolve_in routes PATCH path false = resolve_in routes PUT path false.
Proof.
  cbv [routes resolve_in].
  repeat destruct (match_path _ path None); reflexivity.
Qed.

Lemma resolve_patch_put (path : list string) :
  resolve PATCH path = resolve PUT path.
Proof. unfold resolve. rewrite resolve_in_patch_put. reflexivity. Qed.

Lemma resolve_in_put_ticket (ticket_id : string) :
  resolve_in routes PUT ["api"; "tickets"; ticket_id] false
  = if bool_decide (ticket_id = "") then NoRoute
    else Matched ep_update_ticket (Some ticket_id).
Proof.
  unfold routes, tickets, ticket_by_id. cbn.
  destruct (bool_decide (ticket_id = "")); reflexivity.
Qed.

Lemma resolve_put_ticket (ticket_id : string) :
  resolve PUT ["api"; "tickets"; ticket_id]
  = if bool_decide (ticket_id = "") then Redirect ["api"; "tickets"]
    else Matched ep_update_ticket (Some ticket_id).
Proof.
  unfold resolve. rewrite resolve_in_put_ticket.
  destruct (bool_decide (ticket_id = "")) eqn:He; [|reflexivity].
  apply bool_decide_eq_true in He. subst ticket_id. vm_compute. reflexivity.
Qed.

(** C5. A PATCH and a PUT request that agree on path, query and body get the
    same response and leave the same store; on [/api/tickets/{id}] with an
    update payload both are one call of [update_ticket] (and with the id
    segment empty, [/api/tickets/], both are the router's redirect to
    [/api/tickets]). *)
Theorem patch_put_equivalent (a : ambient) (db : option database)
    (ticket_id : string) (p : TicketUpdate) (status priority : option string) :
  app a db (mk_request PATCH ["api"; "tickets"; ticket_id] status priority (UpdateBody p))
  = app a db (mk_request PUT ["api"; "tickets"; ticket_id] status priority (UpdateBody p))
  /\
  app a db (mk_request PUT ["api"; "tickets"; ticket_id] status priority (UpdateBody p))
  = if bool_decide (ticket_id = "")
    then (Returns (BRedirect ["api"; "tickets"]), db)
    else let '(o, db') := update_ticket db (utcnow a) ticket_id p in
         (BDict <$> o, db').
Proof.
  split.
  - unfold app. cbn [req_method req_path req_body req_status req_priority].
    rewrite resolve_patch_put. reflexivity.
  - unfold app. cbn [req_method req_path req_body req_status req_priority].
    rewrite resolve_put_ticket.
    destruct (bool_decide (ticket_id = "")); reflexivity.
Qed.

(** ** Listing *)

(** The ticket's field [k] is the string [s]. *)
Definition field_is (k s : string) (t : dict) : bool :=
  bool_decide (t !! k = Some (VStr s)).

(** The response for a list of stored tickets. *)
Definition shaped (l : list dict) : list (option dict) :=
  map (fun t => serialize_doc (Some t)) l.

Lemma truthy_Some (s : string) : s <> "" -> truthy (Some s) = true.
Proof. intros Hs. unfold truthy. rewrite bool_decide_eq_false_2 by exact Hs. reflexivity. Qed.

Lemma find_status (c : collection) (s : string) :
  find c (<["status" := VStr s]> ∅) = List.filter (field_is "status" s) c.
Proof.
  unfold find. apply List.filter_ext. intros t.
  rewrite insert_empty. apply matches_singleton.
Qed.

Lemma find_priority (c : collection) (p : string) :
  find c (<["priority" := VStr p]> ∅) = List.filter (field_is "priority" p) c.
Proof.
  unfold find. apply List.filter_ext. intros t.
  rewrite insert_empty. apply matches_singleton.
Qed.

Lemma find_status_priority (c : collection) (s p : string) :
  find c (<["priority" := VStr p]> (<["status" := VStr s]> ∅))
  = List.filter (fun t => field_is "status" s t && field_is "priority" p t) c.
Proof.
  unfold find. apply List.filter_ext. intros t.
  rewrite matches_insert by (rewrite lookup_insert_ne by discriminate; apply lookup_empty).
  rewrite insert_empty, matches_singleton. apply andb_comm.
Qed.

(** C6, as the code has it. With a non-empty [status] the listing is exactly
    the tickets whose [status] is that string, likewise for a non-empty
    [priority], and for both together the tickets matching both; with no
    filter it is the entire collection. *)
Theorem list_tickets_filters (d : database) (s p : string) :
  s <> "" -> p <> "" ->
  list_tickets get_documents (Some d) (Some s) None
    = Returns (shaped (List.filter (field_is "status" s) (coll d "ticket"))) /\
  list_tickets get_documents (Some d) None (Some p)
    = Returns (shaped (List.filter (field_is "priority" p) (coll d "ticket"))) /\
  list_tickets get_documents (Some d) (Some s) (Some p)
    = Returns (shaped (List.filter
                 (fun t => field_is "status" s t && field_is "priority" p t)
                 (coll d "ticket"))) /\
  list_tickets get_documents (Some d) None None
    = Returns (shaped (coll d "ticket")).
Proof.
  intros Hs Hp. unfold list_tickets, set_if_truthy, get_documents.
  rewrite !truthy_Some by assumption. cbn [mbind outcome_bind mret outcome_ret].
  rewrite find_status, find_priority, find_status_priority, find_empty.
  repeat split; reflexivity.
Qed.

Lemma list_tickets_filters_witness :
  list_tickets get_documents (Some one_ticket_db) (Some "open") None
    = Returns (shaped (List.filter (field_is "status" "open")
                                   (coll one_ticket_db "ticket"))) /\
  list_tickets get_documents (Some one_ticket_db) None (Some "high")
    = Returns (shaped (List.filter (field_is "priority" "high")
                                   (coll one_ticket_db "ticket"))) /\
  list_tickets get_documents (Some one_ticket_db) (Some "open") (Some "high")
    = Returns (shaped (List.filter
                 (fun t => field_is "status" "open" t && field_is "priority" "high" t)
                 (coll one_ticket_db "ticket"))) /\
  list_tickets get_documents (Some one_ticket_db) None None
    = Returns (shaped (coll one_ticket_db "ticket")).
Proof.
  apply (list_tickets_filters one_ticket_db "open" "high"); discriminate.
Defined.

(** C6 as stated fails at the empty string: [?status=] lists the ticket
    whose status is ["open"], and no ticket has the status [""]. *)
Lemma list_tickets_empty_status_lists_all :
  list_tickets get_documents (Some one_ticket_db) (Some "") None
    = Returns (shaped [stored 255 login_bug]) /\
  shaped (List.filter (field_is "status" "") (coll one_ticket_db "ticket")) = [] /\
  list_tickets get_documents (Some one_ticket_db) (Some "") None
    <> Returns (shaped (List.filter (field_is "status" "")
                                    (coll one_ticket_db "ticket"))).
Proof.
  assert (H1 : list_tickets get_documents (Some one_ticket_db) (Some "") None
               = Returns (shaped [stored 255 login_bug])).
  { unfold list_tickets, set_if_truthy, get_documents. simpl.
    rewrite find_empty. reflexivity. }
  assert (H2 : shaped (List.filter (field_is "status" "")
                                   (coll one_ticket_db "ticket")) = []).
  { vm_compute. reflexivity. }
  split; [exact H1|]. split; [exact H2|].
  rewrite H1, H2. discriminate.
Qed.

(** C10. An empty [status] (or [priority]) is the same request as one
    without it, whatever [get_documents] does with the filter. *)
Theorem empty_filter_is_absent
    (get_documents : database -> string -> dict -> outcome (list dict))
    (db : option database) (o : option string) :
  list_tickets get_documents db (Some "") o = list_tickets get_documents db None o /\
  list_tickets get_documents db o (Some "") = list_tickets get_documents db o None.
Proof.
  unfold list_tickets. destruct db as [d|]; [|split; reflexivity].
  split; reflexivity.
Qed.

(** ** Deleting *)

Definition deleted (ticket_id : string) : dict :=
  <["status" := VStr "deleted"]> {["id" := VStr ticket_id]}.




(** ** The diagnostic endpoint *)

Lemma py_len_str_take (n : nat) (s : string) :
  py_len (str_take n s) = Nat.min n (py_len s).
Proof.
  revert n. induction s as [|a s IH]; intros n; simpl.
  - destruct n; reflexivity.
  - destruct (is_continuation a) eqn:Ha.
    + simpl. rewrite Ha. apply IH.
    + destruct n as [|n]; simpl; [reflexivity|]. rewrite Ha, IH. reflexivity.
Qed.

(** Truncation counts code points, not bytes: thirty two-byte letters are
    kept whole. *)
Example str_take_keeps_code_points :
  let text := "éééééééééééééééééééééééééééééé" in
  String.length text = 60%nat /\ py_len text = 30%nat /\ str_take 50 text = text /\
  str_take 2 "honnête" = "ho" /\ str_take 5 "honnête" = "honnê".
Proof. repeat split; reflexivity. Qed.

(** C9. Whatever the store is (absent, present, or failing to list its
    collections), [test_database] returns a diagnostic object: it lists at
    most ten collection names, the first ten the store reports, and a
    failure of the listing appears as text in the [database] field, with
    the first 50 characters of the error. *)
Theorem test_database_never_raises (db : option database)
    (environ : gmap string string) :
  exists r, test_database db environ = Returns r /\
    (length (collection_names r) <= 10)%nat /\
    collection_names r
      = match db with
        | Some d => match list_collection_names d with
                    | Listed names => take 10 names
                    | ListingFailed _ => []
                    end
        | None => []
        end /\
    database_status r
      = match db with
        | Some d => match list_collection_names d with
                    | Listed _ => "✅ Connected & Working"
                    | ListingFailed text =>
                        "⚠️  Connected but Error: " ++ str_take 50 text
                    end
        | None => "⚠️  Available but not initialized"
        end /\
    forall d text, db = Some d -> list_collection_names d = ListingFailed text ->
      exists shown,
        database_status r = "⚠️  Connected but Error: " ++ shown /\
        py_len shown = Nat.min 50 (py_len text).
Proof.
  unfold test_database. eexists. split; [reflexivity|].
  destruct db as [d|]; [destruct (list_collection_names d) as [names|text] eqn:Hl|];
    cbn [collection_names database_status set_database set_database_url
         set_database_name set_connection_status set_collections];
    (split; [try (cbn; lia)|split; [reflexivity|split; [reflexivity|]]]).
  - rewrite length_take. lia.
  - intros d' text' [= <-]. rewrite Hl. discriminate.
  - intros d' text' [= <-]. rewrite Hl. intros [= <-].
    exists (str_take 50 text). split; [reflexivity|apply py_len_str_take].
  - intros d' text' Hd. discriminate.
Qed.

Definition failing_db : database :=
  mk_database None (ListingFailed "connexion refusée par le serveur") ∅.

Lemma test_database_never_raises_witness :
  exists r, test_database (Some failing_db) ∅ = Returns r /\
    collection_names r = [] /\
    exists shown,
      database_status r = "⚠️  Connected but Error: " ++ shown /\
      py_len shown = Nat.min 50 32.
Proof.
  destruct (test_database_never_raises (Some failing_db) ∅)
    as (r & Hr & _ & Hc & _ & Hs).
  exists r. split; [exact Hr|]. split; [exact Hc|].
  apply (Hs failing_db "connexion refusée par le serveur"); reflexivity.
Defined.

(** * Further properties of the handlers *)

(** ** More on response shaping *)

Lemma render_is_plain (v : value) : plain (render v).
Proof. destruct v; exact I. Qed.

Lemma rename_id_absent (d : dict) : d !! "_id" = None -> rename_id d = d.
Proof. intros H. unfold rename_id. rewrite H. reflexivity. Qed.

(** Shaping a shaped document changes nothing: there is no ["_id"] left to
    rename and no timestamp left to render. *)
Theorem serialize_doc_idempotent (doc : option dict) :
  serialize_doc (serialize_doc doc) = serialize_doc doc.
Proof.
  destruct doc as [d|]; [|reflexivity].
  rewrite !serialize_doc_Some. f_equal.
  rewrite rename_id_absent
    by (rewrite lookup_fmap, rename_id_lookup_id; reflexivity).
  apply fmap_fixed. intros k v. rewrite lookup_fmap.
  destruct (rename_id d !! k) as [w|]; simpl; [|discriminate].
  intros [= <-]. apply render_plain, render_is_plain.
Qed.

(** What [serialize_doc] returns is ready for JSON: no key ["_id"], and no
    [datetime] or [date] left among the values. *)
Theorem serialize_doc_json_ready (doc : option dict) (d' : dict) (k : string)
    (v : value) :
  serialize_doc doc = Some d' -> d' !! k = Some v -> k <> "_id" /\ plain v.
Proof.
  destruct doc as [d|]; [|discriminate].
  rewrite serialize_doc_Some. intros [= <-]. rewrite lookup_fmap.
  destruct (rename_id d !! k) as [w|] eqn:Hk; simpl; [|discriminate].
  intros [= <-]. split; [|apply render_is_plain].
  intros ->. rewrite rename_id_lookup_id in Hk. discriminate.
Qed.

Lemma serialize_doc_json_ready_witness :
  "updated_at" <> "_id" /\ plain (VStr "2024-01-02T03:04:05").
Proof.
  apply (serialize_doc_json_ready (Some sample_doc)
           (render <$> rename_id sample_doc) "updated_at").
  - vm_compute. reflexivity.
  - vm_compute. reflexivity.
Defined.

(** The keys of a shaped document: those of the document, with ["_id"]
    replaced by ["id"]; a document without ["_id"] keeps its keys.  The
    empty document and [None] come back as they are. *)
Theorem serialize_doc_keys (d : dict) :
  serialize_doc None = None /\
  serialize_doc (Some ∅) = Some ∅ /\
  exists d', serialize_doc (Some d) = Some d' /\
    dom d' = (if bool_decide (is_Some (d !! "_id"))
              then {["id"]} ∪ (dom d ∖ {["_id"]})
              else dom d).
Proof.
  split; [reflexivity|]. split; [reflexivity|].
  exists (render <$> rename_id d). split; [apply serialize_doc_Some|].
  rewrite dom_fmap_L. unfold rename_id.
  destruct (d !! "_id") as [v|] eqn:Hv.
  - rewrite bool_decide_eq_true_2 by eauto.
    rewrite dom_insert_L, dom_delete_L. reflexivity.
  - rewrite bool_decide_eq_false_2 by (intros [? ?]; discriminate). reflexivity.
Qed.

(** ** More on partial updates *)

(** The field of an update payload by its name. *)
Definition field (p : TicketUpdate) (k : string) : option (option string) :=
  if decide (k = "title") then u_title p
  else if decide (k = "description") then u_description p
  else if decide (k = "status") then u_status p
  else if decide (k = "priority") then u_priority p
  else if decide (k = "assignee") then u_assignee p
  else None.

Lemma lookup_dump_field (k' : string) (f : option (option string)) (m : dict)
    (k : string) :
  dump_field k' f m !! k
  = if decide (k = k')
    then match f with Some v => Some (opt_value v) | None => m !! k end
    else m !! k.
Proof.
  unfold dump_field. case_decide as Hk.
  - subst k'. destruct f; [apply lookup_insert_eq|reflexivity].
  - destruct f; [apply lookup_insert_ne; congruence|reflexivity].
Qed.

Lemma lookup_model_dump_exclude_unset (p : TicketUpdate) (k : string) :
  model_dump_exclude_unset p !! k = opt_value <$> field p k.
Proof.
  unfold model_dump_exclude_unset, field.
  rewrite !lookup_dump_field, lookup_empty.
  repeat case_decide; subst; try discriminate;
    match goal with
    | |- context [match ?f with _ => _ end] => destruct f; reflexivity
    | |- _ => reflexivity
    end.
Qed.

(** What [$set] writes for the payload [p] stamped at [now]. *)
Definition stamp (now : datetime) (p : TicketUpdate) : dict :=
  bson_value <$> <["updated_at" := VDatetime now]> (model_dump_exclude_unset p).

Lemma lookup_stamp (now : datetime) (p : TicketUpdate) (k : string) :
  stamp now p !! k
  = if decide (k = "updated_at") then Some (VDatetime (bson_datetime now))
    else opt_value <$> field p k.
Proof.
  unfold stamp. rewrite lookup_fmap. case_decide as Hk.
  - subst k. rewrite lookup_insert_eq. reflexivity.
  - rewrite lookup_insert_ne by congruence.
    rewrite lookup_model_dump_exclude_unset.
    destruct (field p k) as [o|]; simpl; [|reflexivity].
    rewrite bson_value_plain by apply plain_opt_value. reflexivity.
Qed.

Lemma stamp_lookup_id (now : datetime) (p : TicketUpdate) :
  stamp now p !! "_id" = None.
Proof. rewrite lookup_stamp. reflexivity. Qed.

Lemma model_dump_exclude_unset_empty (p : TicketUpdate) :
  model_dump_exclude_unset p = ∅ <-> p = no_fields.
Proof.
  split; [|intros ->; reflexivity].
  intros He.
  assert (H : forall k, field p k = None).
  { intros k. pose proof (lookup_model_dump_exclude_unset p k) as Hk.
    rewrite He, lookup_empty in Hk. destruct (field p k); [discriminate|reflexivity]. }
  pose proof (H "title") as H1. pose proof (H "description") as H2.
  pose proof (H "status") as H3. pose proof (H "priority") as H4.
  pose proof (H "assignee") as H5.
  destruct p as [a b c e f]. cbv in H1, H2, H3, H4, H5. subst. reflexivity.
Qed.


Lemma update_ticket_malformed (d : database) (now : datetime) (ticket_id : string)
    (p : TicketUpdate) (e : exn) :
  ObjectId ticket_id = Raises e ->
  update_ticket (Some d) now ticket_id p
    = (Raises (HTTPException 400 "Invalid ticket id"), Some d).
Proof.
  intros He. unfold update_ticket. rewrite He.
  rewrite (ObjectId_raises _ _ He).
  destruct (bool_decide _); reflexivity.
Qed.

Lemma update_ticket_absent (d : database) (now : datetime) (ticket_id : string)
    (p : TicketUpdate) (id : oid) :
  ObjectId ticket_id = Returns id ->
  find_one (coll d "ticket") {["_id" := VOid id]} = None ->
  update_ticket (Some d) now ticket_id p
    = (Raises (HTTPException 404 "Ticket not found"), Some d).
Proof.
  intros Hid Hf. unfold update_ticket, db_update_one. rewrite Hid.
  destruct (bool_decide _); cbn [mbind outcome_bind].
  - rewrite Hf. reflexivity.
  - rewrite update_one_missing by (apply find_one_None; exact Hf). reflexivity.
Qed.

Lemma update_ticket_found (d : database) (now : datetime) (ticket_id : string)
    (p : TicketUpdate) (id : oid) (doc : dict) :
  ObjectId ticket_id = Returns id ->
  find_one (coll d "ticket") {["_id" := VOid id]} = Some doc ->
  p <> no_fields ->
  exists i, coll d "ticket" !! i = Some doc /\
    find_one (<[i := stamp now p ∪ doc]> (coll d "ticket")) {["_id" := VOid id]}
      = Some (stamp now p ∪ doc) /\
    update_ticket (Some d) now ticket_id p
      = (Returns (serialize_doc (Some (stamp now p ∪ doc))),
         Some (set_coll d "ticket" (<[i := stamp now p ∪ doc]> (coll d "ticket")))).
Proof.
  intros Hid Hf Hp.
  destruct (find_one_Some _ _ _ Hf) as (i & Hi & Hm & Hlt).
  assert (Hm' : matches {["_id" := VOid id]} (stamp now p ∪ doc) = true).
  { destruct (matches_by_id_true _ _ Hm) as [Hd Hb].
    apply matches_by_id_intro; [exact Hb|].
    rewrite lookup_union_r by apply stamp_lookup_id. exact Hd. }
  pose proof (find_one_insert _ _ doc _ i Hi Hm' Hlt) as Hf'.
  exists i. split; [exact Hi|]. split; [exact Hf'|].
  unfold update_ticket.
  rewrite bool_decide_eq_false_2
    by (rewrite model_dump_exclude_unset_empty; exact Hp).
  rewrite Hid. unfold db_update_one.
  rewrite (update_one_found _ _ _ doc i Hi Hm Hlt). fold (stamp now p).
  change (1 =? 0) with false. cbv iota beta.
  rewrite coll_set_coll, Hf'. reflexivity.
Qed.

(** For any payload with at least one field, on an existing ticket: each
    supplied field takes the supplied value (null included), [updated_at]
    takes the clock, and every other key of the stored ticket, ["_id"] among
    them, is as before. *)
Theorem update_ticket_frame (d : database) (now : datetime) (ticket_id : string)
    (p : TicketUpdate) (id : oid) (doc : dict) :
  ObjectId ticket_id = Returns id ->
  find_one (coll d "ticket") {["_id" := VOid id]} = Some doc ->
  p <> no_fields ->
  exists (i : nat) (doc' : dict),
    coll d "ticket" !! i = Some doc /\
    update_ticket (Some d) now ticket_id p
      = (Returns (serialize_doc (Some doc')),
         Some (set_coll d "ticket" (<[i := doc']> (coll d "ticket")))) /\
    forall k,
      doc' !! k = if decide (k = "updated_at")
                  then Some (VDatetime (bson_datetime now))
                  else match field p k with
                       | Some v => Some (opt_value v)
                       | None => doc !! k
                       end.
Proof.
  intros Hid Hf Hp.
  destruct (update_ticket_found d now ticket_id p id doc Hid Hf Hp)
    as (i & Hi & _ & Hu).
  exists i, (stamp now p ∪ doc). split; [exact Hi|]. split; [exact Hu|].
  intros k. rewrite lookup_union, lookup_stamp.
  case_decide; [destruct (doc !! k); reflexivity|].
  destruct (field p k) as [o|]; simpl; [destruct (doc !! k); reflexivity|].
  destruct (doc !! k); reflexivity.
Qed.

Definition rename_and_clear : TicketUpdate :=
  mk_TicketUpdate (Some (Some "Fix sign-in")) None None None (Some None).

Lemma update_ticket_frame_witness :
  exists (i : nat) (doc' : dict),
    coll one_ticket_db "ticket" !! i = Some (stored 255 login_bug) /\
    update_ticket (Some one_ticket_db) noon "0000000000000000000000ff"
                  rename_and_clear
      = (Returns (serialize_doc (Some doc')),
         Some (set_coll one_ticket_db "ticket"
                        (<[i := doc']> (coll one_ticket_db "ticket")))) /\
    forall k,
      doc' !! k = if decide (k = "updated_at")
                  then Some (VDatetime (bson_datetime noon))
                  else match field rename_and_clear k with
                       | Some v => Some (opt_value v)
                       | None => stored 255 login_bug !! k
                       end.
Proof.
  apply (update_ticket_frame one_ticket_db noon "0000000000000000000000ff"
           rename_and_clear 255 (stored 255 login_bug)).
  - vm_compute. reflexivity.
  - vm_compute. reflexivity.
  - discriminate.
Defined.

#[global] Instance TicketUpdate_eq_dec : EqDecision TicketUpdate.
Proof. solve_decision. Defined.

Lemma update_ticket_no_fields (d : database) (now : datetime) (ticket_id : string)
    (id : oid) (doc : dict) :
  ObjectId ticket_id = Returns id ->
  find_one (coll d "ticket") {["_id" := VOid id]} = Some doc ->
  update_ticket (Some d) now ticket_id no_fields
    = (Returns (serialize_doc (Some doc)), Some d).
Proof.
  intros Hid Hf. unfold update_ticket.
  rewrite bool_decide_eq_true_2 by reflexivity.
  rewrite Hid. cbn [mbind outcome_bind]. rewrite Hf.
  destruct (found_not_falsy _ _ _ Hf) as [_ ->]. reflexivity.
Qed.

(** The three ways an update goes, read off [ObjectId] and the lookup. *)
Lemma update_ticket_cases (d : database) (now : datetime) (ticket_id : string)
    (p : TicketUpdate) :
  update_ticket (Some d) now ticket_id p
    = (Raises (HTTPException 400 "Invalid ticket id"), Some d) \/
  update_ticket (Some d) now ticket_id p
    = (Raises (HTTPException 404 "Ticket not found"), Some d) \/
  exists id doc doc' d',
    ObjectId ticket_id = Returns id /\
    find_one (coll d "ticket") {["_id" := VOid id]} = Some doc /\
    find_one (coll d' "ticket") {["_id" := VOid id]} = Some doc' /\
    update_ticket (Some d) now ticket_id p
      = (Returns (serialize_doc (Some doc')), Some d').
Proof.
  destruct (ObjectId ticket_id) as [id|e] eqn:Hid;
    [|left; exact (update_ticket_malformed d now ticket_id p e Hid)].
  destruct (find_one (coll d "ticket") {["_id" := VOid id]}) as [doc|] eqn:Hf;
    [|right; left; exact (update_ticket_absent d now ticket_id p id Hid Hf)].
  right; right. destruct (decide (p = no_fields)) as [->|Hp].
  - exists id, doc, doc, d. repeat split; try assumption.
    exact (update_ticket_no_fields d now ticket_id id doc Hid Hf).
  - destruct (update_ticket_found d now ticket_id p id doc Hid Hf Hp)
      as (i & Hi & Hf' & Hu).
    exists id, doc, (stamp now p ∪ doc),
           (set_coll d "ticket" (<[i := stamp now p ∪ doc]> (coll d "ticket"))).
    repeat split; try assumption. rewrite coll_set_coll. exact Hf'.
Qed.

(** With the store configured, an update answers 400 to an id that does not
    parse and 404 to a well-formed id with no ticket, whatever the payload
    (empty or not), and in both cases writes nothing. *)
Theorem update_ticket_error_responses (d : database) (now : datetime)
    (ticket_id : string) (p : TicketUpdate) :
  (forall e, ObjectId ticket_id = Raises e ->
     update_ticket (Some d) now ticket_id p
       = (Raises (HTTPException 400 "Invalid ticket id"), Some d)) /\
  (forall id, ObjectId ticket_id = Returns id ->
     find_one (coll d "ticket") {["_id" := VOid id]} = None ->
     update_ticket (Some d) now ticket_id p
       = (Raises (HTTPException 404 "Ticket not found"), Some d)).
Proof.
  split.
  - intros e. apply update_ticket_malformed.
  - intros id. apply update_ticket_absent.
Qed.

Lemma update_ticket_error_responses_witness :
  update_ticket (Some one_ticket_db) noon "not-an-id" rename_and_clear
    = (Raises (HTTPException 400 "Invalid ticket id"), Some one_ticket_db) /\
  update_ticket (Some one_ticket_db) noon absent_id no_fields
    = (Raises (HTTPException 404 "Ticket not found"), Some one_ticket_db) /\
  update_ticket (Some one_ticket_db) noon "00000000000000000000ff  "
                rename_and_clear
    = (Raises (HTTPException 404 "Ticket not found"), Some one_ticket_db).
Proof.
  split; [|split].
  - apply (proj1 (update_ticket_error_responses one_ticket_db noon "not-an-id"
                    rename_and_clear) (InvalidId "not-an-id")).
    vm_compute. reflexivity.
  - apply (proj2 (update_ticket_error_responses one_ticket_db noon absent_id
                    no_fields) 31549039604097840347949411277);
      vm_compute; reflexivity.
  - apply (proj2 (update_ticket_error_responses one_ticket_db noon
                    "00000000000000000000ff  " rename_and_clear)
             (oid_of_bytes 11 255));
      vm_compute; reflexivity.
Defined.

(** Reading a ticket right after an update returns what the update
    returned. *)
Theorem update_then_get (db db' : option database) (now : datetime)
    (ticket_id : string) (p : TicketUpdate) (body : option dict) :
  update_ticket db now ticket_id p = (Returns body, db') ->
  get_ticket db' ticket_id = Returns body.
Proof.
  destruct db as [d|]; [|discriminate].
  destruct (update_ticket_cases d now ticket_id p)
    as [H|[H|(id & doc & doc' & d' & Hid & _ & Hf' & H)]];
    rewrite H; try discriminate.
  intros [= <- <-]. exact (get_ticket_found d' ticket_id id doc' Hid Hf').
Qed.

Lemma update_then_get_witness :
  get_ticket
    (snd (update_ticket (Some one_ticket_db) noon "0000000000000000000000ff"
                        (status_only (Some "closed"))))
    "0000000000000000000000ff"
  = Returns
      (match fst (update_ticket (Some one_ticket_db) noon
                                "0000000000000000000000ff"
                                (status_only (Some "closed"))) with
       | Returns body => body
       | Raises _ => None
       end).
Proof.
  apply (update_then_get (Some one_ticket_db) _ noon "0000000000000000000000ff"
           (status_only (Some "closed"))).
  vm_compute. reflexivity.
Defined.


(** ** Updates compose *)

Lemma update_one_count (c : collection) (flt u1 u2 : dict) :
  snd (update_one c flt u1) = snd (update_one c flt u2).
Proof.
  induction c as [|x c IH]; simpl; [reflexivity|].
  destruct (matches flt x); [reflexivity|].
  destruct (update_one c flt u1), (update_one c flt u2). exact IH.
Qed.

Lemma union_same_keys (b1 b2 x : dict) :
  (forall k, b2 !! k = None -> b1 !! k = None) -> b2 ∪ (b1 ∪ x) = b2 ∪ x.
Proof.
  intros H. apply map_eq. intros k. rewrite !lookup_union.
  destruct (b2 !! k) as [v|] eqn:Hk.
  - destruct (b1 !! k), (x !! k); reflexivity.
  - rewrite (H k Hk). destruct (x !! k); reflexivity.
Qed.

Lemma update_one_twice (c : collection) (flt u1 u2 : dict) :
  (forall x, matches flt x = true -> matches flt ((bson_value <$> u1) ∪ x) = true) ->
  (forall k, u2 !! k = None -> u1 !! k = None) ->
  update_one (fst (update_one c flt u1)) flt u2 = update_one c flt u2.
Proof.
  intros Hkeep Hkeys. induction c as [|x c IH]; simpl; [reflexivity|].
  destruct (matches flt x) eqn:Hx; simpl.
  - rewrite (Hkeep x Hx). f_equal. f_equal. apply union_same_keys.
    intros k. rewrite !lookup_fmap.
    destruct (u2 !! k) eqn:Hk; [discriminate|]. intros _.
    rewrite (Hkeys k Hk). reflexivity.
  - destruct (update_one c flt u1) as [c1 n1]. simpl in *.
    rewrite Hx, IH. reflexivity.
Qed.

(** Sending the same update twice leaves the store and the response as one
    update at the later time does: fields are set, not accumulated, and
    [updated_at] is the last write's. *)
Theorem update_ticket_twice (db : option database) (t1 t2 : datetime)
    (ticket_id : string) (p : TicketUpdate) :
  update_ticket (snd (update_ticket db t1 ticket_id p)) t2 ticket_id p
  = update_ticket db t2 ticket_id p.
Proof.
  destruct db as [d|]; [|reflexivity].
  unfold update_ticket at 2.
  destruct (bool_decide (model_dump_exclude_unset p = ∅)) eqn:He.
  { destruct (ObjectId ticket_id); cbn [mbind outcome_bind];
      [destruct (falsy _)|]; reflexivity. }
  destruct (ObjectId ticket_id) as [id|e] eqn:Hid; [|reflexivity].
  unfold db_update_one.
  destruct (update_one (coll d "ticket") {["_id" := VOid id]}
              (<["updated_at" := VDatetime t1]> (model_dump_exclude_unset p)))
    as [c1 n1] eqn:Hu1.
  destruct (n1 =? 0) eqn:Hn1; cbn [snd]; [reflexivity|].
  unfold update_ticket. rewrite He, Hid. unfold db_update_one.
  rewrite coll_set_coll.
  replace c1 with (fst (update_one (coll d "ticket") {["_id" := VOid id]}
              (<["updated_at" := VDatetime t1]> (model_dump_exclude_unset p))))
    by (rewrite Hu1; reflexivity).
  rewrite update_one_twice.
  - destruct (update_one (coll d "ticket") {["_id" := VOid id]}
                (<["updated_at" := VDatetime t2]> (model_dump_exclude_unset p)))
      as [c2 n2] eqn:Hu2.
    assert (n2 = n1) as ->.
    { pose proof (update_one_count (coll d "ticket") {["_id" := VOid id]}
                    (<["updated_at" := VDatetime t2]> (model_dump_exclude_unset p))
                    (<["updated_at" := VDatetime t1]> (model_dump_exclude_unset p)))
        as Hc.
      rewrite Hu1, Hu2 in Hc. exact Hc. }
    rewrite Hn1.
    assert (Hs : set_coll (set_coll d "ticket"
                   (fst (update_one (coll d "ticket") {["_id" := VOid id]}
                      (<["updated_at" := VDatetime t1]>
                         (model_dump_exclude_unset p))))) "ticket" c2
                 = set_coll d "ticket" c2).
    { unfold set_coll. simpl. rewrite insert_insert_eq. reflexivity. }
    rewrite Hs. reflexivity.
  - intros x Hx. fold (stamp t1 p).
    destruct (matches_by_id_true _ _ Hx) as [Hd Hb].
    apply matches_by_id_intro; [exact Hb|].
    rewrite lookup_union_r by apply stamp_lookup_id. exact Hd.
  - intros k. rewrite !lookup_insert.
    destruct (decide ("updated_at" = k)); [discriminate|tauto].
Qed.

(** ** Identifiers in the collection *)

(** The ["_id"] of each document, in collection order. *)
Definition ids (c : collection) : list (option value) :=
  (fun x : dict => x !! "_id") <$> c.

Definition unique_ids (c : collection) : Prop := NoDup (ids c).

Lemma update_one_ids (c : collection) (flt u : dict) :
  u !! "_id" = None -> ids (fst (update_one c flt u)) = ids c.
Proof.
  intros Hu. unfold ids. induction c as [|x c IH]; simpl; [reflexivity|].
  destruct (matches flt x); simpl.
  - f_equal. apply lookup_union_r. rewrite lookup_fmap, Hu. reflexivity.
  - destruct (update_one c flt u) as [c1 n1]. simpl in *. f_equal. exact IH.
Qed.

Lemma update_one_length (c : collection) (flt u : dict) :
  length (fst (update_one c flt u)) = length c.
Proof.
  induction c as [|x c IH]; simpl; [reflexivity|].
  destruct (matches flt x); simpl; [reflexivity|].
  destruct (update_one c flt u) as [c1 n1]. simpl in *. f_equal. exact IH.
Qed.

Lemma stamped_updates_lookup_id (now : datetime) (p : TicketUpdate) :
  (<["updated_at" := VDatetime now]> (model_dump_exclude_unset p)) !! "_id" = None.
Proof.
  rewrite lookup_insert_ne by discriminate.
  rewrite lookup_model_dump_exclude_unset. reflexivity.
Qed.

Lemma update_ticket_store (d : database) (now : datetime) (ticket_id : string)
    (p : TicketUpdate) :
  snd (update_ticket (Some d) now ticket_id p) = Some d \/
  exists id,
    snd (update_ticket (Some d) now ticket_id p)
    = Some (set_coll d "ticket"
              (fst (update_one (coll d "ticket") {["_id" := VOid id]}
                      (<["updated_at" := VDatetime now]>
                         (model_dump_exclude_unset p))))).
Proof.
  unfold update_ticket.
  destruct (bool_decide (model_dump_exclude_unset p = ∅)); [left; reflexivity|].
  destruct (ObjectId ticket_id) as [id|e]; [|left; reflexivity].
  unfold db_update_one.
  destruct (update_one _ _ _) as [c1 n1] eqn:Hu.
  destruct (n1 =? 0); [left; reflexivity|].
  right. exists id. rewrite Hu. reflexivity.
Qed.

Lemma update_ticket_keeps_ids_aux (d : database) (now : datetime)
    (ticket_id : string) (p : TicketUpdate) :
  exists d', snd (update_ticket (Some d) now ticket_id p) = Some d' /\
    ids (coll d' "ticket") = ids (coll d "ticket").
Proof.
  destruct (update_ticket_store d now ticket_id p) as [H|[id H]]; rewrite H.
  - exists d. split; reflexivity.
  - eexists. split; [reflexivity|]. rewrite coll_set_coll.
    apply update_one_ids, stamped_updates_lookup_id.
Qed.

(** An update never adds or removes a document and never touches an
    ["_id"]: the ticket collection keeps its length and its identifiers in
    order, and every other collection is as it was. *)
Theorem update_ticket_keeps_ids (d : database) (now : datetime)
    (ticket_id : string) (p : TicketUpdate) :
  exists d', snd (update_ticket (Some d) now ticket_id p) = Some d' /\
    ids (coll d' "ticket") = ids (coll d "ticket") /\
    length (coll d' "ticket") = length (coll d "ticket") /\
    forall name, name <> "ticket" -> coll d' name = coll d name.
Proof.
  destruct (update_ticket_store d now ticket_id p) as [H|[id H]]; rewrite H.
  - exists d. repeat split; reflexivity.
  - eexists. split; [reflexivity|]. rewrite coll_set_coll.
    split; [apply update_one_ids, stamped_updates_lookup_id|].
    split; [apply update_one_length|].
    intros name Hn. apply coll_set_coll_ne. congruence.
Qed.

Lemma delete_ticket_cases (d : database) (ticket_id : string) :
  delete_ticket (Some d) ticket_id
    = (Raises (HTTPException 400 "Invalid ticket id"), Some d) \/
  delete_ticket (Some d) ticket_id
    = (Raises (HTTPException 404 "Ticket not found"), Some d) \/
  exists id doc i,
    ObjectId ticket_id = Returns id /\
    coll d "ticket" !! i = Some doc /\
    doc !! "_id" = Some (VOid id) /\
    delete_ticket (Some d) ticket_id
      = (Returns (deleted ticket_id),
         Some (set_coll d "ticket" (delete i (coll d "ticket")))).
Proof.
  unfold delete_ticket, db_delete_one.
  destruct (ObjectId ticket_id) as [id|e] eqn:Hid.
  - destruct (find_one (coll d "ticket") {["_id" := VOid id]}) as [doc|] eqn:Hf.
    + right; right.
      destruct (find_one_Some _ _ _ Hf) as (i & Hi & Hm & Hlt).
      exists id, doc, i. split; [reflexivity|]. split; [exact Hi|].
      split; [exact (proj1 (matches_by_id_true _ _ Hm))|].
      rewrite (delete_one_found _ _ doc i Hi Hm Hlt). reflexivity.
    + right; left.
      rewrite delete_one_missing by (apply find_one_None; exact Hf). reflexivity.
  - left. rewrite (ObjectId_raises _ _ Hid). reflexivity.
Qed.

Lemma ids_delete (c : collection) (i : nat) : ids (delete i c) = delete i (ids c).
Proof.
  unfold ids. revert i. induction c as [|x c IH]; intros [|i]; simpl;
    try reflexivity. f_equal. apply IH.
Qed.

Lemma unique_ids_delete (c : collection) (i : nat) :
  unique_ids c -> unique_ids (delete i c).
Proof.
  unfold unique_ids. rewrite ids_delete.
  intros Hu. eapply sublist_NoDup; [exact Hu|apply sublist_delete].
Qed.

(** Unique identifiers stay unique under update and under delete. *)
Theorem writes_keep_ids_unique (d d' : database) (now : datetime)
    (ticket_id : string) (p : TicketUpdate) :
  unique_ids (coll d "ticket") ->
  (snd (update_ticket (Some d) now ticket_id p) = Some d' ->
   unique_ids (coll d' "ticket")) /\
  (snd (delete_ticket (Some d) ticket_id) = Some d' ->
   unique_ids (coll d' "ticket")).
Proof.
  intros Hu. split.
  - destruct (update_ticket_keeps_ids_aux d now ticket_id p) as (d1 & H1 & Hids).
    rewrite H1. intros [= <-]. unfold unique_ids. rewrite Hids. exact Hu.
  - destruct (delete_ticket_cases d ticket_id)
      as [H|[H|(id & doc & i & _ & _ & _ & H)]]; rewrite H; intros [= <-];
      try exact Hu.
    rewrite coll_set_coll. apply unique_ids_delete, Hu.
Qed.

Lemma unique_ids_one_ticket : unique_ids (coll one_ticket_db "ticket").
Proof. apply NoDup_singleton. Defined.

Definition release_notes : TicketCreate :=
  mk_Ticket "Write release notes" (Some "for 2.4") (Some "open") None None.

Definition two_ticket_db : database :=
  mk_database (Some "tickets") (Listed ["ticket"])
              {["ticket" := [stored 255 login_bug; stored 256 release_notes]]}.

(** Two tickets under one identifier are not unique; the two of
    [two_ticket_db] are. *)
Example unique_ids_distinguishes :
  ~ unique_ids [stored 255 login_bug; stored 255 release_notes] /\
  unique_ids (coll two_ticket_db "ticket").
Proof.
  split.
  - apply (bool_decide_eq_false_1 (unique_ids _)). vm_compute. reflexivity.
  - apply (bool_decide_eq_true_1 (unique_ids _)). vm_compute. reflexivity.
Qed.

Lemma writes_keep_ids_unique_witness :
  unique_ids (coll two_ticket_db "ticket") /\
  unique_ids [stored 255 login_bug;
              stamp noon rename_and_clear ∪ stored 256 release_notes] /\
  unique_ids [stored 256 release_notes].
Proof.
  assert (Hu : unique_ids (coll two_ticket_db "ticket")).
  { apply (bool_decide_eq_true_1 (unique_ids _)). vm_compute. reflexivity. }
  split; [exact Hu|]. split.
  - apply (proj1 (writes_keep_ids_unique two_ticket_db
                    (set_coll two_ticket_db "ticket"
                       [stored 255 login_bug;
                        stamp noon rename_and_clear ∪ stored 256 release_notes])
                    noon "000000000000000000000100" rename_and_clear Hu)).
    vm_compute. reflexivity.
  - apply (proj2 (writes_keep_ids_unique two_ticket_db
                    (set_coll two_ticket_db "ticket" [stored 256 release_notes])
                    noon "0000000000000000000000ff" rename_and_clear Hu)).
    vm_compute. reflexivity.
Defined.

(** ** After a delete *)

Lemma NoDup_delete_gone {A} (l : list A) (i : nat) (a : A) :
  NoDup l -> l !! i = Some a -> a ∉ delete i l.
Proof.
  intros Hl Hi [j Hj]%list_elem_of_lookup.
  destruct (decide (j < i)%nat) as [Hlt|Hge].
  - rewrite list_lookup_delete_lt in Hj by exact Hlt.
    pose proof (NoDup_lookup l i j a Hl Hi Hj). lia.
  - rewrite list_lookup_delete_ge in Hj by lia.
    pose proof (NoDup_lookup l i (S j) a Hl Hi Hj). lia.
Qed.

Lemma find_one_deleted (c : collection) (i : nat) (doc : dict) (id : oid) :
  unique_ids c -> c !! i = Some doc -> doc !! "_id" = Some (VOid id) ->
  find_one (delete i c) {["_id" := VOid id]} = None.
Proof.
  intros Hu Hi Hid. apply find_one_None. intros x Hx.
  apply matches_by_id_false. intros Hxid.
  apply (NoDup_delete_gone (ids c) i (Some (VOid id)) Hu).
  - unfold ids. rewrite list_lookup_fmap, Hi. simpl. rewrite Hid. reflexivity.
  - rewrite <- ids_delete. unfold ids. rewrite <- Hxid.
    apply list_elem_of_fmap. exists x. split; [reflexivity|exact Hx].
Qed.

(** Once a delete has succeeded in a collection with unique identifiers, the
    ticket is gone for every handler: a second delete and any update answer
    404, and a read answers 400. *)
Theorem delete_then_gone (d d' : database) (ticket_id : string) (body : dict) :
  unique_ids (coll d "ticket") ->
  delete_ticket (Some d) ticket_id = (Returns body, Some d') ->
  delete_ticket (Some d') ticket_id
    = (Raises (HTTPException 404 "Ticket not found"), Some d') /\
  (forall now p, update_ticket (Some d') now ticket_id p
    = (Raises (HTTPException 404 "Ticket not found"), Some d')) /\
  get_ticket (Some d') ticket_id = Raises (HTTPException 400 "Invalid ticket id").
Proof.
  intros Hu.
  destruct (delete_ticket_cases d ticket_id)
    as [H|[H|(id & doc & i & Hid & Hi & Hdoc & H)]]; rewrite H; try discriminate.
  intros [= _ <-].
  assert (Hf : find_one (coll (set_coll d "ticket" (delete i (coll d "ticket")))
                              "ticket") {["_id" := VOid id]} = None).
  { rewrite coll_set_coll. exact (find_one_deleted _ i doc id Hu Hi Hdoc). }
  split; [|split].
  - unfold delete_ticket, db_delete_one. rewrite Hid.
    rewrite delete_one_missing by (apply find_one_None; exact Hf).
    reflexivity.
  - intros now p. exact (update_ticket_absent _ now ticket_id p id Hid Hf).
  - exact (get_ticket_absent _ ticket_id id Hid Hf).
Qed.

Lemma delete_then_gone_witness :
  delete_ticket (Some (set_coll one_ticket_db "ticket" []))
                "0000000000000000000000ff"
    = (Raises (HTTPException 404 "Ticket not found"),
       Some (set_coll one_ticket_db "ticket" [])) /\
  (forall now p,
     update_ticket (Some (set_coll one_ticket_db "ticket" [])) now
                   "0000000000000000000000ff" p
     = (Raises (HTTPException 404 "Ticket not found"),
        Some (set_coll one_ticket_db "ticket" []))) /\
  get_ticket (Some (set_coll one_ticket_db "ticket" []))
             "0000000000000000000000ff"
    = Raises (HTTPException 400 "Invalid ticket id").
Proof.
  apply (delete_then_gone one_ticket_db _ "0000000000000000000000ff"
           (deleted "0000000000000000000000ff") unique_ids_one_ticket).
  vm_compute. reflexivity.
Defined.

(** ** More on the diagnostic endpoint *)

(** The [database_url] and [database_name] of the diagnostics say only
    whether the two environment variables are set to something non-empty:
    what the store branch wrote there (["✅ Configured"], the store's own
    name) is overwritten on every path.  [connection_status] tells whether
    the handle exists. *)
Theorem test_database_reports_environment (db : option database)
    (environ : gmap string string) :
  exists r, test_database db environ = Returns r /\
    backend r = "✅ Running" /\
    database_url r
      = Some (if truthy (environ !! "DATABASE_URL") then "✅ Set" else "❌ Not Set") /\
    database_name r
      = Some (if truthy (environ !! "DATABASE_NAME") then "✅ Set" else "❌ Not Set") /\
    connection_status r
      = match db with Some _ => "Connected" | None => "Not Connected" end.
Proof.
  unfold test_database. eexists. split; [reflexivity|].
  destruct db as [d|]; [destruct (list_collection_names d)|];
    repeat split; reflexivity.
Qed.

(** ** Without a store *)

(** With no store handle every ticket handler answers 500 before anything
    else: before the id is parsed (a malformed id is not a 400 here) and
    before either helper of database.py is called. *)
Theorem unconfigured_store_is_500
    (create_document :
       database -> oid -> string -> TicketCreate -> outcome string * database)
    (get_documents : database -> string -> dict -> outcome (list dict))
    (fresh : oid) (payload : TicketCreate) (status priority : option string)
    (ticket_id : string) (now : datetime) (p : TicketUpdate) :
  create_ticket create_document None fresh payload
    = (Raises (HTTPException 500 "Database not configured"), None) /\
  list_tickets get_documents None status priority
    = Raises (HTTPException 500 "Database not configured") /\
  get_ticket None ticket_id
    = Raises (HTTPException 500 "Database not configured") /\
  update_ticket None now ticket_id p
    = (Raises (HTTPException 500 "Database not configured"), None) /\
  delete_ticket None ticket_id
    = (Raises (HTTPException 500 "Database not configured"), None).
Proof. repeat split; reflexivity. Qed.

(** ** The id of a response *)

(** A ticket read by any spelling of its id (upper or lower case digits)
    carries the canonical lower-case id, and reading by that id returns the
    same ticket. *)
Theorem get_ticket_id_round_trip (d : database) (ticket_id : string) (id : oid)
    (doc : dict) :
  ObjectId ticket_id = Returns id ->
  find_one (coll d "ticket") {["_id" := VOid id]} = Some doc ->
  exists body,
    get_ticket (Some d) ticket_id = Returns (Some body) /\
    body !! "id" = Some (VStr (oid_str id)) /\
    get_ticket (Some d) (oid_str id) = Returns (Some body).
Proof.
  intros Hid Hf.
  destruct (found_not_falsy _ _ _ Hf) as [Hdoc _].
  destruct (find_one_Some _ _ _ Hf) as (i & _ & Hm & _).
  apply matches_by_id_true in Hm as [_ Hbound].
  exists (render <$> rename_id doc).
  rewrite <- serialize_doc_Some. split; [|split].
  - exact (get_ticket_found d ticket_id id doc Hid Hf).
  - rewrite lookup_fmap. unfold rename_id. rewrite Hdoc, lookup_insert_eq.
    reflexivity.
  - apply (get_ticket_found d (oid_str id) id doc); [|exact Hf].
    apply ObjectId_oid_str. exact Hbound.
Qed.

Lemma get_ticket_id_round_trip_witness :
  exists body,
    get_ticket (Some one_ticket_db) "0000000000000000000000FF"
      = Returns (Some body) /\
    body !! "id" = Some (VStr (oid_str 255)) /\
    get_ticket (Some one_ticket_db) (oid_str 255) = Returns (Some body).
Proof.
  apply (get_ticket_id_round_trip one_ticket_db "0000000000000000000000FF" 255
           (stored 255 login_bug)).
  - vm_compute. reflexivity.
  - vm_compute. reflexivity.
Defined.

(** ** What the update response shows *)

Lemma field_name (p : TicketUpdate) (k : string) (v : option string) :
  field p k = Some v -> k <> "_id" /\ k <> "id" /\ k <> "updated_at".
Proof.
  unfold field. repeat case_decide; subst; try discriminate.
  all: intros _; repeat split; discriminate.
Qed.

(** The response to an update with at least one field, on an existing
    ticket: it carries the ticket's canonical id, each supplied field with
    the supplied value, and [updated_at] as the ISO text of the clock at the
    store's precision. *)
Theorem update_ticket_response_fields (d : database) (now : datetime)
    (ticket_id : string) (p : TicketUpdate) (id : oid) (doc : dict) :
  ObjectId ticket_id = Returns id ->
  find_one (coll d "ticket") {["_id" := VOid id]} = Some doc ->
  p <> no_fields ->
  exists body,
    fst (update_ticket (Some d) now ticket_id p) = Returns (Some body) /\
    body !! "id" = Some (VStr (oid_str id)) /\
    body !! "updated_at"
      = Some (VStr (datetime_isoformat (bson_datetime now))) /\
    forall k v, field p k = Some v -> body !! k = Some (opt_value v).
Proof.
  intros Hid Hf Hp.
  destruct (update_ticket_found d now ticket_id p id doc Hid Hf Hp)
    as (i & Hi & Hf' & Hu).
  destruct (found_not_falsy _ _ _ Hf') as [Hdoc' _].
  exists (render <$> rename_id (stamp now p ∪ doc)).
  rewrite Hu, serialize_doc_Some. split; [reflexivity|]. split; [|split].
  - rewrite lookup_fmap. unfold rename_id. rewrite Hdoc', lookup_insert_eq.
    reflexivity.
  - rewrite lookup_fmap, rename_id_lookup_other by discriminate.
    rewrite (lookup_union_Some_l _ _ _ (VDatetime (bson_datetime now)));
      [reflexivity|].
    rewrite lookup_stamp. reflexivity.
  - intros k v Hk. destruct (field_name p k v Hk) as (H1 & H2 & H3).
    rewrite lookup_fmap, rename_id_lookup_other by (try assumption; congruence).
    rewrite (lookup_union_Some_l _ _ _ (opt_value v)).
    + simpl. rewrite render_plain by apply plain_opt_value. reflexivity.
    + rewrite lookup_stamp. rewrite decide_False by exact H3.
      rewrite Hk. reflexivity.
Qed.

Lemma update_ticket_response_fields_witness :
  exists body,
    fst (update_ticket (Some one_ticket_db) noon "0000000000000000000000ff"
                       rename_and_clear) = Returns (Some body) /\
    body !! "id" = Some (VStr (oid_str 255)) /\
    body !! "updated_at"
      = Some (VStr (datetime_isoformat (bson_datetime noon))) /\
    forall k v, field rename_and_clear k = Some v ->
                body !! k = Some (opt_value v).
Proof.
  apply (update_ticket_response_fields one_ticket_db noon
           "0000000000000000000000ff" rename_and_clear 255
           (stored 255 login_bug)).
  - vm_compute. reflexivity.
  - vm_compute. reflexivity.
  - discriminate.
Defined.

(** ** Creating without a handler *)

(** [create_ticket] has no [try]: an exception of [create_document] and an
    [InvalidId] on the id it returned leave the handler as they are (not as
    an [HTTPException]), after whatever [create_document] did to the store;
    and when nothing is found under the returned id the handler returns
    [None] instead of raising. *)
Theorem create_ticket_propagates
    (create_document :
       database -> oid -> string -> TicketCreate -> outcome string * database)
    (d d1 : database) (fresh : oid) (payload : TicketCreate) :
  (forall e, create_document d fresh "ticket" payload = (Raises e, d1) ->
     create_ticket create_document (Some d) fresh payload = (Raises e, Some d1)) /\
  (forall ticket_id e,
     create_document d fresh "ticket" payload = (Returns ticket_id, d1) ->
     ObjectId ticket_id = Raises e ->
     create_ticket create_document (Some d) fresh payload = (Raises e, Some d1)) /\
  (forall ticket_id id,
     create_document d fresh "ticket" payload = (Returns ticket_id, d1) ->
     ObjectId ticket_id = Returns id ->
     find_one (coll d1 "ticket") {["_id" := VOid id]} = None ->
     create_ticket create_document (Some d) fresh payload
       = (Returns None, Some d1)).
Proof.
  split; [|split].
  - intros e H. unfold create_ticket. rewrite H. reflexivity.
  - intros ticket_id e H Hid. unfold create_ticket. rewrite H.
    cbn [mbind outcome_bind]. rewrite Hid. reflexivity.
  - intros ticket_id id H Hid Hf. unfold create_ticket. rewrite H.
    cbn [mbind outcome_bind]. rewrite Hid. cbn [mbind outcome_bind].
    rewrite Hf. reflexivity.
Qed.

Lemma create_ticket_propagates_witness :
  create_ticket (fun d _ _ _ => (Raises (PyException "store down"), d))
                (Some empty_db) 255 login_bug
    = (Raises (PyException "store down"), Some empty_db) /\
  create_ticket (fun d _ _ _ => (Returns "not-an-id", d))
                (Some empty_db) 255 login_bug
    = (Raises (InvalidId "not-an-id"), Some empty_db) /\
  create_ticket (fun d _ _ _ => (Returns absent_id, d))
                (Some empty_db) 255 login_bug
    = (Returns None, Some empty_db).
Proof.
  split; [|split].
  - apply (proj1 (create_ticket_propagates
                    (fun d _ _ _ => (Raises (PyException "store down"), d))
                    empty_db empty_db 255 login_bug)).
    reflexivity.
  - apply (proj1 (proj2 (create_ticket_propagates
                    (fun d _ _ _ => (Returns "not-an-id", d))
                    empty_db empty_db 255 login_bug)) "not-an-id").
    + reflexivity.
    + vm_compute. reflexivity.
  - apply (proj2 (proj2 (create_ticket_propagates
                    (fun d _ _ _ => (Returns absent_id, d))
                    empty_db empty_db 255 login_bug))
             absent_id 31549039604097840347949411277).
    + reflexivity.
    + vm_compute. reflexivity.
    + vm_compute. reflexivity.
Defined.
